(** * VR-Headset: the real-time frame pipeline

    A shallow embedding of the Python sources

      - [config.py]                   (module [Config])
      - [utils/math_utils.py]         (module [MathUtils])
      - [processing/filters.py]       (module [Filters], from the specification)
      - [sensors/reader.py]           (modules [Re] and [Reader])
      - [sensors/fusion.py]           (module [Fusion])
      - [processing/vr_distortion.py] (module [VRDistortion])
      - [processing/capture.py] and [ui/display.py]
                                      (modules [PyQueue] and [Display])

    with the definitions in which the specification is read ([SpecRotation],
    [Projection]) and some concrete inputs ([Examples]), followed by the
    properties of the pipeline.

    Conventions.  A Python [float] is a real number of [R]: the development
    is about the algorithm, rounding is left out.  A Python [int] that holds
    a size or a count is a [nat].  A function that can raise returns a
    [result]; [try ... except] is [try_except] or a [match] on the
    exception.  Mutable objects ([self], a queue) are threaded through as
    values.  Each loop of a thread is modelled by one turn of it, or by its
    run over the finite list of what it reads. *)

From Stdlib Require Import Ascii String.
From Stdlib Require Import Reals Lra Lia ZArith Arith Bool List.
Import ListNotations.

Set Implicit Arguments.

(** ** Exceptions *)

Inductive exn : Type :=
| QueueFull          (* queue.Full *)
| QueueEmpty         (* queue.Empty *)
| ValueError         (* float() of a malformed text, numpy shape mismatch *)
| ZeroDivisionError
| SerialException    (* the serial transport failed *)
| NumbaError.        (* the JIT backend could not compile or run *)

Inductive result (A : Type) : Type :=
| Ok (a : A)
| Raise (e : exn).

Arguments Ok {A} a.
Arguments Raise {A} e.

Definition bind {A B : Type} (m : result A) (k : A -> result B) : result B :=
  match m with
  | Ok a => k a
  | Raise e => Raise e
  end.

(** [try: m except Exception: h] *)
Definition try_except {A : Type} (m : result A) (h : exn -> result A) : result A :=
  match m with
  | Ok a => Ok a
  | Raise e => h e
  end.

Declare Scope py_scope.
Delimit Scope py_scope with py.
Notation "x <- m ;; k" := (bind m (fun x => k))
  (at level 61, m at next level, right associativity) : py_scope.
Notation "' p <- m ;; k" := (bind m (fun x => match x with p => k end))
  (at level 61, p pattern, m at next level, right associativity) : py_scope.

(** ** queue.Queue, used without blocking *)

Module PyQueue.
Section Queue.
Variable A : Type.

(** [items] holds the oldest element first.  [maxsize = 0] is Python's
    unbounded queue. *)
Record Queue : Type := mkQueue { maxsize : nat; items : list A }.

Definition new (n : nat) : Queue := mkQueue n [].

Definition qsize (q : Queue) : nat := length (items q).

Definition empty (q : Queue) : bool :=
  match items q with [] => true | _ :: _ => false end.

(** [0 < self.maxsize <= self._qsize()] *)
Definition full (q : Queue) : bool :=
  (0 <? maxsize q)%nat && (maxsize q <=? qsize q)%nat.

Definition put_nowait (q : Queue) (x : A) : result Queue :=
  if full q then Raise QueueFull
  else Ok (mkQueue (maxsize q) (items q ++ [x])).

Definition get_nowait (q : Queue) : result (A * Queue) :=
  match items q with
  | [] => Raise QueueEmpty
  | x :: rest => Ok (x, mkQueue (maxsize q) rest)
  end.

(** The queue management of [ScreenCapture.capture_screen] (capture.py,
    lines 70-78) and of [VRDisplayApp.render_frame_thread] (display.py,
    lines 100-108):
<<
    try:
        buffer.put_nowait(frame)
    except queue.Full:
        try:
            buffer.get_nowait()        # Remove oldest
            buffer.put_nowait(frame)   # Add new
        except queue.Empty:
            pass
>>
    A [queue.Full] of the inner [put_nowait] is not caught. *)
Definition put_drop_oldest (q : Queue) (frame : A) : result Queue :=
  match put_nowait q frame with
  | Ok q' => Ok q'
  | Raise QueueFull =>
      match get_nowait q with
      | Ok (_, q1) => put_nowait q1 frame
      | Raise QueueEmpty => Ok q
      | Raise e => Raise e
      end
  | Raise e => Raise e
  end.

(** A producer that pushes the frames [xs] one after the other. *)
Fixpoint put_all (q : Queue) (xs : list A) : result Queue :=
  match xs with
  | [] => Ok q
  | x :: xs' =>
      match put_drop_oldest q x with
      | Ok q' => put_all q' xs'
      | Raise e => Raise e
      end
  end.

(** The [n] most recent items of [l], in arrival order. *)
Definition most_recent (n : nat) (l : list A) : list A :=
  skipn (length l - n) l.
End Queue.

Arguments new {A} n.
End PyQueue.

(** ** config.py *)

Module Config.
Local Open Scope R_scope.

Record Config : Type := mkConfig {
  WIDTH : nat;
  HEIGHT : nat;
  CAPTURE_WIDTH : nat;
  CAPTURE_HEIGHT : nat;
  IPD : R;
  FOV_DEGREES : R;
  SCREEN_DISTANCE : R;
  SERIAL_PORT : string;
  SERIAL_BAUDRATE : Z;
  SENSOR_FILTER_ALPHA : R;
  TARGET_FPS : nat;
  CAPTURE_FPS : nat;
  RENDER_FPS : nat;
  FRAME_BUFFER_SIZE : nat;
  ORIENTATION_THRESHOLD : R;
  CURSOR_SIZE : nat;
  CURSOR_COLOR : nat * nat * nat;
  FPS_TEXT_COLOR : string;
  FPS_TEXT_FONT : string * nat
}.

(** The module as it is in the repository. *)
Definition config : Config := {|
  WIDTH := 2560;
  HEIGHT := 1440;
  CAPTURE_WIDTH := 1280;
  CAPTURE_HEIGHT := 720;
  IPD := 63;
  FOV_DEGREES := 90;
  SCREEN_DISTANCE := 2;
  SERIAL_PORT := "/dev/tty.usbserial-0001";
  SERIAL_BAUDRATE := 115200%Z;
  SENSOR_FILTER_ALPHA := 0.05;
  TARGET_FPS := 240;
  CAPTURE_FPS := 240;
  RENDER_FPS := 90;
  FRAME_BUFFER_SIZE := 2;
  ORIENTATION_THRESHOLD := 0.5;
  CURSOR_SIZE := 5;
  CURSOR_COLOR := (0, 255, 0)%nat;
  FPS_TEXT_COLOR := "white";
  FPS_TEXT_FONT := ("Arial"%string, 24%nat)
|}.

Definition num (n : nat) : R := IZR (Z.of_nat n).

(** The configuration surface: every setting of the module that is a
    number, under its name.  (The other four settings are a device path, a
    colour triple, a colour name and a font.) *)
Definition numeric_settings (c : Config) : list (string * R) :=
  [ ("WIDTH"%string, num (WIDTH c));
    ("HEIGHT"%string, num (HEIGHT c));
    ("CAPTURE_WIDTH"%string, num (CAPTURE_WIDTH c));
    ("CAPTURE_HEIGHT"%string, num (CAPTURE_HEIGHT c));
    ("IPD"%string, IPD c);
    ("FOV_DEGREES"%string, FOV_DEGREES c);
    ("SCREEN_DISTANCE"%string, SCREEN_DISTANCE c);
    ("SERIAL_BAUDRATE"%string, IZR (SERIAL_BAUDRATE c));
    ("SENSOR_FILTER_ALPHA"%string, SENSOR_FILTER_ALPHA c);
    ("TARGET_FPS"%string, num (TARGET_FPS c));
    ("CAPTURE_FPS"%string, num (CAPTURE_FPS c));
    ("RENDER_FPS"%string, num (RENDER_FPS c));
    ("FRAME_BUFFER_SIZE"%string, num (FRAME_BUFFER_SIZE c));
    ("ORIENTATION_THRESHOLD"%string, ORIENTATION_THRESHOLD c);
    ("CURSOR_SIZE"%string, num (CURSOR_SIZE c)) ].
End Config.

(** ** utils/math_utils.py *)

Module MathUtils.
Local Open Scope R_scope.

(** A 3x3 [np.array]; [mIJ] is the entry [[I, J]]. *)
Record mat3 : Type := Mat3 {
  m00 : R; m01 : R; m02 : R;
  m10 : R; m11 : R; m12 : R;
  m20 : R; m21 : R; m22 : R
}.

(** [a @ b] *)
Definition matmul (a b : mat3) : mat3 := {|
  m00 := m00 a * m00 b + m01 a * m10 b + m02 a * m20 b;
  m01 := m00 a * m01 b + m01 a * m11 b + m02 a * m21 b;
  m02 := m00 a * m02 b + m01 a * m12 b + m02 a * m22 b;
  m10 := m10 a * m00 b + m11 a * m10 b + m12 a * m20 b;
  m11 := m10 a * m01 b + m11 a * m11 b + m12 a * m21 b;
  m12 := m10 a * m02 b + m11 a * m12 b + m12 a * m22 b;
  m20 := m20 a * m00 b + m21 a * m10 b + m22 a * m20 b;
  m21 := m20 a * m01 b + m21 a * m11 b + m22 a * m21 b;
  m22 := m20 a * m02 b + m21 a * m12 b + m22 a * m22 b
|}.

(** [m.T] *)
Definition transpose (m : mat3) : mat3 := {|
  m00 := m00 m; m01 := m10 m; m02 := m20 m;
  m10 := m01 m; m11 := m11 m; m12 := m21 m;
  m20 := m02 m; m21 := m12 m; m22 := m22 m
|}.

(** [math.radians] *)
Definition radians (deg : R) : R := deg * (PI / 180).

Definition create_rotation_matrix (yaw pitch roll : R) : mat3 :=
  let yaw_rad := radians yaw in
  let pitch_rad := radians pitch in
  let roll_rad := radians roll in
  let rot_yaw := {|
    m00 := cos yaw_rad;   m01 := 0; m02 := sin yaw_rad;
    m10 := 0;             m11 := 1; m12 := 0;
    m20 := - sin yaw_rad; m21 := 0; m22 := cos yaw_rad |} in
  let rot_pitch := {|
    m00 := 1; m01 := 0;             m02 := 0;
    m10 := 0; m11 := cos pitch_rad; m12 := - sin pitch_rad;
    m20 := 0; m21 := sin pitch_rad; m22 := cos pitch_rad |} in
  let rot_roll := {|
    m00 := cos roll_rad; m01 := - sin roll_rad; m02 := 0;
    m10 := sin roll_rad; m11 := cos roll_rad;   m12 := 0;
    m20 := 0;            m21 := 0;              m22 := 1 |} in
  matmul (matmul rot_yaw rot_pitch) rot_roll.
End MathUtils.

(** ** The rotations of the specification

    Section 4.5 of the specification asks for "standard right-handed
    rotations" about the vertical, the horizontal and the depth axis.  These
    definitions follow those words and not the source: the right-handed
    rotation by [theta] about a unit axis [u] is given by Rodrigues' formula
    [cos theta * I + sin theta * [u]x + (1 - cos theta) * u u^T]. *)

Module SpecRotation.
Import MathUtils.
Local Open Scope R_scope.

Definition vec3 : Type := (R * R * R)%type.

Definition vertical_axis : vec3 := (0, 1, 0).     (* y, up *)
Definition horizontal_axis : vec3 := (1, 0, 0).   (* x, to the right *)
Definition depth_axis : vec3 := (0, 0, 1).        (* z, the viewing direction *)

Definition right_handed_rotation (u : vec3) (theta : R) : mat3 :=
  let '(ux, uy, uz) := u in
  let c := cos theta in
  let s := sin theta in
  {| m00 := c + (1 - c) * ux * ux;
     m01 := (1 - c) * ux * uy - s * uz;
     m02 := (1 - c) * ux * uz + s * uy;
     m10 := (1 - c) * uy * ux + s * uz;
     m11 := c + (1 - c) * uy * uy;
     m12 := (1 - c) * uy * uz - s * ux;
     m20 := (1 - c) * uz * ux - s * uy;
     m21 := (1 - c) * uz * uy + s * ux;
     m22 := c + (1 - c) * uz * uz |}.

Definition R_yaw (yaw : R) : mat3 :=
  right_handed_rotation vertical_axis (radians yaw).
Definition R_pitch (pitch : R) : mat3 :=
  right_handed_rotation horizontal_axis (radians pitch).
Definition R_roll (roll : R) : mat3 :=
  right_handed_rotation depth_axis (radians roll).

(** The product of a matrix and a column vector: the rotation applied to a
    point. *)
Definition apply (m : mat3) (p : vec3) : vec3 :=
  let '(x, y, z) := p in
  (x * m00 m + y * m01 m + z * m02 m,
   x * m10 m + y * m11 m + z * m12 m,
   x * m20 m + y * m21 m + z * m22 m).
End SpecRotation.

(** ** processing/filters.py *)

Module Filters.
Local Open Scope R_scope.

(** Modelled from the spec: the class [LowPassFilter] of
    [processing/filters.py], which [sensors/fusion.py] imports and which
    is not among the sources.  Section 4.1: the state is the last smoothed
    value ([None] until the first call); the first call returns and stores
    [raw]; a later call returns and stores
    [alpha * raw + (1 - alpha) * previous]. *)
Record LowPassFilter : Type := mkLowPassFilter {
  alpha : R;
  value : option R
}.

Definition new (a : R) : LowPassFilter := mkLowPassFilter a None.

Definition update (self : LowPassFilter) (raw : R) : R * LowPassFilter :=
  match value self with
  | None => (raw, mkLowPassFilter (alpha self) (Some raw))
  | Some previous =>
      let v := alpha self * raw + (1 - alpha self) * previous in
      (v, mkLowPassFilter (alpha self) (Some v))
  end.

(** Successive calls of [update]; the outputs in call order. *)
Fixpoint updates (self : LowPassFilter) (raws : list R) : list R * LowPassFilter :=
  match raws with
  | [] => ([], self)
  | raw :: rest =>
      let (out, self1) := update self raw in
      let (outs, self2) := updates self1 rest in
      (out :: outs, self2)
  end.
End Filters.

(** ** The part of Python's [re] and [str] that sensors/reader.py uses

    Text is ASCII text, as the sensor firmware sends it: on it
    [bytes.decode('utf-8', errors='replace')] changes nothing, and a [string]
    stands for the decoded line. *)

Module Re.
Local Open Scope nat_scope.

Definition code (c : ascii) : nat := nat_of_ascii c.

(** [str.isspace] on ASCII, which is also [\s] of a [str] pattern:
    TAB, LF, VT, FF, CR, FS, GS, RS, US and the space. *)
Definition is_space (c : ascii) : bool :=
  ((9 <=? code c) && (code c <=? 13)) || ((28 <=? code c) && (code c <=? 32)).

(** [\d] on ASCII *)
Definition is_digit (c : ascii) : bool :=
  (48 <=? code c) && (code c <=? 57).

Inductive charclass : Type :=
| Whitespace     (* \s *)
| NumberChar.    (* [-\d.] *)

Definition in_class (cls : charclass) (c : ascii) : bool :=
  match cls with
  | Whitespace => is_space c
  | NumberChar => Ascii.eqb c "-" || is_digit c || Ascii.eqb c "."
  end.

(** The pieces a pattern of the program is made of. *)
Inductive node : Type :=
| Literal (text : string)      (* the characters themselves *)
| Star (cls : charclass)       (* cls*    , greedy *)
| Group (cls : charclass).     (* (cls+)  , greedy, capturing *)

(** [literal text s]: [s] without its prefix [text]. *)
Fixpoint literal (text s : string) : option string :=
  match text with
  | EmptyString => Some s
  | String a text' =>
      match s with
      | String b s' => if Ascii.eqb a b then literal text' s' else None
      | EmptyString => None
      end
  end.

(** A greedy repetition with backtracking: take characters of the class
    as long as there are any, then hand the taken text and the rest to the
    continuation [k]; when [k] fails give back one character and try
    again, down to [min] characters. *)
Fixpoint greedy {T : Type} (cls : charclass) (min : nat)
    (k : string -> string -> option T) (taken s : string) {struct s} : option T :=
  let stop := match min with O => k taken s | S _ => None end in
  match s with
  | String c s' =>
      if in_class cls c then
        match greedy cls (pred min) k (taken ++ String c EmptyString) s' with
        | Some r => Some r
        | None => stop
        end
      else stop
  | EmptyString => stop
  end.

(** A match of the whole pattern at the start of the text; the result is
    the list of captured groups, group 1 first. *)
Fixpoint match_here (p : list node) : string -> option (list string) :=
  match p with
  | [] => fun _ => Some []
  | Literal text :: p' =>
      fun s =>
        match literal text s with
        | Some s' => match_here p' s'
        | None => None
        end
  | Star cls :: p' =>
      greedy cls 0 (fun _ rest => match_here p' rest) EmptyString
  | Group cls :: p' =>
      greedy cls 1
        (fun g rest => option_map (cons g) (match_here p' rest)) EmptyString
  end.

(** [re.search]: the leftmost match. *)
Fixpoint search (p : list node) (s : string) : option (list string) :=
  match match_here p s with
  | Some groups => Some groups
  | None =>
      match s with
      | String _ s' => search p s'
      | EmptyString => None
      end
  end.

(** [match.group(i)] for [i >= 1] *)
Definition group (m : list string) (i : nat) : string :=
  nth (pred i) m EmptyString.

(** [str.strip()] *)
Fixpoint lstrip (s : string) : string :=
  match s with
  | String c s' => if is_space c then lstrip s' else s
  | EmptyString => EmptyString
  end.

Fixpoint rstrip (s : string) : string :=
  match s with
  | String c s' =>
      match rstrip s' with
      | EmptyString => if is_space c then EmptyString else String c EmptyString
      | r => String c r
      end
  | EmptyString => EmptyString
  end.

Definition strip (s : string) : string := rstrip (lstrip s).

(** [float(text)] for a text made of the characters of [NumberChar], which
    is all that the program passes to it.  Such a text is a number when it
    is an optional minus sign followed by digits with at most one point
    among them and at least one digit; everything else is a [ValueError].
    The number is [mantissa / 10 ^ scale]. *)
Fixpoint read_digits (s : string) (acc : Z) (n : nat) : Z * nat * string :=
  match s with
  | String c s' =>
      if is_digit c
      then read_digits s' (10 * acc + Z.of_nat (code c - 48))%Z (S n)
      else (acc, n, s)
  | EmptyString => (acc, n, s)
  end.

Definition decimal (s : string) : option (Z * nat) :=
  let (negative, s1) :=
    match s with
    | String "-"%char r => (true, r)
    | _ => (false, s)
    end in
  let sign (m : Z) := if negative then (- m)%Z else m in
  let '(int_part, n_int, s2) := read_digits s1 0%Z 0 in
  match s2 with
  | EmptyString =>
      if n_int =? 0 then None else Some (sign int_part, 0)
  | String "."%char s3 =>
      let '(mantissa, n_frac, s4) := read_digits s3 int_part 0 in
      match s4 with
      | EmptyString =>
          if n_int + n_frac =? 0 then None else Some (sign mantissa, n_frac)
      | String _ _ => None
      end
  | String _ _ => None
  end.

Definition float (s : string) : result R :=
  match decimal s with
  | Some (mantissa, scale) => Ok (IZR mantissa / 10 ^ scale)%R
  | None => Raise ValueError
  end.

(** [all_in cls s]: every character of [s] is of the class. *)
Fixpoint all_in (cls : charclass) (s : string) : bool :=
  match s with
  | String c s' => in_class cls c && all_in cls s'
  | EmptyString => true
  end.

(** The classes of the groups of a pattern, group 1 first. *)
Fixpoint group_classes (p : list node) : list charclass :=
  match p with
  | [] => []
  | Group cls :: p' => cls :: group_classes p'
  | _ :: p' => group_classes p'
  end.
End Re.

(** ** sensors/reader.py *)

Module Reader.
Import Re PyQueue.
Local Open Scope string_scope.

(** [r"Yaw:\s*([-\d.]+),\s*Pitch:\s*([-\d.]+),\s*Roll:\s*([-\d.]+)"] *)
Definition pattern : list node :=
  [ Literal "Yaw:"; Star Whitespace; Group NumberChar;
    Literal ","; Star Whitespace;
    Literal "Pitch:"; Star Whitespace; Group NumberChar;
    Literal ","; Star Whitespace;
    Literal "Roll:"; Star Whitespace; Group NumberChar ].

(** The dictionary that is queued. *)
Record Sample : Type := mkSample {
  yaw : R;
  pitch : R;
  roll : R;
  timestamp : R
}.

(** What one turn of the loop finds on the transport. *)
Inductive reading : Type :=
| Nothing                              (* ser.in_waiting == 0 *)
| Line (raw_line : string) (now : R)   (* ser.readline(), and time.time() *)
| Failure.                             (* the transport raises *)

(** The body of [if ser.in_waiting > 0:] for one line (lines 31-53). *)
Definition handle_line (sensor_queue : Queue Sample) (raw_line : string) (now : R)
    : result (Queue Sample) :=
  match raw_line with
  | EmptyString => Ok sensor_queue
  | String _ _ =>
      let line := strip raw_line in
      match search pattern line with
      | Some m =>
          (yaw <- float (group m 1) ;;
           pitch <- float (group m 2) ;;
           roll <- float (group m 3) ;;
           match put_nowait sensor_queue (mkSample yaw pitch roll now) with
           | Ok q => Ok q
           | Raise QueueFull => Ok sensor_queue
           | Raise e => Raise e
           end)%py
      | None => Ok sensor_queue
      end
  end.

(** One turn of [while self.running:]. *)
Definition step (sensor_queue : Queue Sample) (r : reading) : result (Queue Sample) :=
  match r with
  | Nothing => Ok sensor_queue
  | Line raw_line now => handle_line sensor_queue raw_line now
  | Failure => Raise SerialException
  end.

(** How [sensor_reader] ends: the queue, whether the serial connection is
    still open, the readings it never looked at, and the exception that
    reached [except Exception], if any. *)
Record Outcome : Type := mkOutcome {
  sensor_queue : Queue Sample;
  ser_is_open : bool;
  unread : list reading;
  error : option exn
}.

(** [sensor_reader] on an open connection.  The loop runs as long as
    [self.running] holds; [stop()] is called when [readings] is used up.
    Every way out goes through [finally], which closes the connection. *)
Fixpoint sensor_reader (q : Queue Sample) (readings : list reading) : Outcome :=
  match readings with
  | [] => mkOutcome q false [] None
  | r :: rest =>
      match step q r with
      | Ok q' => sensor_reader q' rest
      | Raise e => mkOutcome q false rest (Some e)
      end
  end.

(** The two lines of the specification. *)
Definition noise_line : string :=
  "noise Yaw: -12.50, Pitch: 3.0, Roll: 0.00 trailing".

(** A line of the sensor on which the pattern matches although the text
    after [Yaw:] is not a number. *)
Definition malformed_line : string := "Yaw: -., Pitch: 1.0, Roll: 1.0".
End Reader.

(** ** processing/vr_distortion.py *)

Module VRDistortion.
Import MathUtils.
Local Open Scope R_scope.

Definition array : Type := list R.          (* a 1-D ndarray *)
Definition grid : Type := list (list R).    (* a 2-D ndarray, row by row *)

(** The four maps [(left_map_x, left_map_y, right_map_x, right_map_y)]. *)
Definition RemapMap : Type := (grid * grid * grid * grid)%type.

(** [a[i]] and [g[r, c]] *)
Definition item (a : array) (i : nat) : R := nth i a 0.
Definition entry (g : grid) (r c : nat) : R := nth c (nth r g []) 0.

Definition Rltb (x y : R) : bool := if Rlt_dec x y then true else false.

(** [a.reshape(h, w)], which raises when the sizes do not agree. *)
Fixpoint rows (h w : nat) (a : array) : grid :=
  match h with
  | O => []
  | S h' => firstn w a :: rows h' w (skipn w a)
  end.

Definition reshape (a : array) (h w : nat) : result grid :=
  if (length a =? h * w)%nat then Ok (rows h w a) else Raise ValueError.

(** [np.mgrid[0:h, 0:w]]: the grid of row numbers and the grid of column
    numbers. *)
Definition arange (n : nat) : array := map Config.num (seq 0 n).

Definition mgrid (h w : nat) : grid * grid :=
  (map (fun r => map (fun _ => r) (arange w)) (arange h),
   map (fun _ => arange w) (arange h)).

(** [g.flatten()] *)
Definition flatten (g : grid) : array := concat g.

(** The function under [@jit(nopython=True)].  Each [for i in range(size)]
    loop that fills an array is the [map] over the indices; the arrays
    [np.full(size, -1.0)] keep [-1] where the loop does not assign.  The
    three input arrays have one length wherever the program calls the
    function; [item] reads 0 past the end of a shorter one, where compiled
    code reads without a bounds check. *)
Definition compute_vr_distortion (x_flat y_flat z_flat : array)
    (half_ipd focal_length : R) (target_width target_height : nat)
    (rot_matrix : mat3) (img_height img_width : nat) : result RemapMap :=
  let size := length x_flat in
  let range := seq 0 size in
  (* Left eye transformation with IPD offset *)
  let left_rotated_x := map (fun i =>
    let x_with_ipd := item x_flat i - half_ipd in
    x_with_ipd * m00 rot_matrix + item y_flat i * m01 rot_matrix
      + item z_flat i * m02 rot_matrix) range in
  let left_rotated_y := map (fun i =>
    let x_with_ipd := item x_flat i - half_ipd in
    x_with_ipd * m10 rot_matrix + item y_flat i * m11 rot_matrix
      + item z_flat i * m12 rot_matrix) range in
  let left_rotated_z := map (fun i =>
    let x_with_ipd := item x_flat i - half_ipd in
    x_with_ipd * m20 rot_matrix + item y_flat i * m21 rot_matrix
      + item z_flat i * m22 rot_matrix) range in
  (* Project points to screen coordinates *)
  let left_screen_x := map (fun i =>
    if Rltb 0 (item left_rotated_z i)
    then item left_rotated_x i / item left_rotated_z i * focal_length
           + Config.num target_width / 2
    else -1) range in
  let left_screen_y := map (fun i =>
    if Rltb 0 (item left_rotated_z i)
    then item left_rotated_y i / item left_rotated_z i * focal_length
           + Config.num target_height / 2
    else -1) range in
  (left_map_x <- reshape left_screen_x img_height img_width ;;
   left_map_y <- reshape left_screen_y img_height img_width ;;
   (* Right eye transformation with opposite IPD offset *)
   let right_rotated_x := map (fun i =>
     let x_with_ipd := item x_flat i + half_ipd in
     x_with_ipd * m00 rot_matrix + item y_flat i * m01 rot_matrix
       + item z_flat i * m02 rot_matrix) range in
   let right_rotated_y := map (fun i =>
     let x_with_ipd := item x_flat i + half_ipd in
     x_with_ipd * m10 rot_matrix + item y_flat i * m11 rot_matrix
       + item z_flat i * m12 rot_matrix) range in
   let right_rotated_z := map (fun i =>
     let x_with_ipd := item x_flat i + half_ipd in
     x_with_ipd * m20 rot_matrix + item y_flat i * m21 rot_matrix
       + item z_flat i * m22 rot_matrix) range in
   let right_screen_x := map (fun i =>
     if Rltb 0 (item right_rotated_z i)
     then item right_rotated_x i / item right_rotated_z i * focal_length
            + Config.num target_width / 2
     else -1) range in
   let right_screen_y := map (fun i =>
     if Rltb 0 (item right_rotated_z i)
     then item right_rotated_y i / item right_rotated_z i * focal_length
            + Config.num target_height / 2
     else -1) range in
   right_map_x <- reshape right_screen_x img_height img_width ;;
   right_map_y <- reshape right_screen_y img_height img_width ;;
   Ok (left_map_x, left_map_y, right_map_x, right_map_y))%py.

(** [self] of [VRProcessor].  [map_cache = None] is the empty dictionary
    that [__init__] stores, which is false in a condition; a tuple of four
    maps is true. *)
Record VRProcessor : Type := mkVRProcessor {
  config : Config.Config;
  target_width : nat;
  target_height : nat;
  fov_rad : R;
  focal_length : R;
  half_ipd : R;
  x_centered : grid;
  y_centered : grid;
  z_values : grid;
  x_flat : array;
  y_flat : array;
  z_flat : array;
  map_cache : option RemapMap;
  last_orientation : option (R * R * R)
}.

(** [__init__]: [precompute_vr_parameters] fills the fields, then
    [map_cache = {}] and [last_orientation = None].  The two true divisions
    by a value that can be zero raise. *)
Definition precompute_vr_parameters (config : Config.Config) : result VRProcessor :=
  let target_width := (Config.CAPTURE_WIDTH config / 2)%nat in
  let target_height := Config.CAPTURE_HEIGHT config in
  let fov_rad := radians (Config.FOV_DEGREES config) in
  if Req_dec_T (tan (fov_rad / 2)) 0 then Raise ZeroDivisionError else
  let focal_length := (Config.num target_width / 2) / tan (fov_rad / 2) in
  if Req_dec_T (Config.SCREEN_DISTANCE config * 1000) 0 then Raise ZeroDivisionError else
  let half_ipd :=
    Config.IPD config * focal_length / (Config.SCREEN_DISTANCE config * 1000) / 2 in
  let '(y_grid, x_grid) := mgrid target_height target_width in
  let x_centered := map (map (fun x => x - Config.num target_width / 2)) x_grid in
  let y_centered := map (map (fun y => y - Config.num target_height / 2)) y_grid in
  let z_values := map (map (fun _ => 1 * focal_length)) x_grid in
  Ok {| config := config;
        target_width := target_width;
        target_height := target_height;
        fov_rad := fov_rad;
        focal_length := focal_length;
        half_ipd := half_ipd;
        x_centered := x_centered;
        y_centered := y_centered;
        z_values := z_values;
        x_flat := flatten x_centered;
        y_flat := flatten y_centered;
        z_flat := flatten z_values;
        map_cache := None;
        last_orientation := None |}.

(** The two assignments at the end of [compute_distortion_maps]. *)
Definition store (self : VRProcessor) (maps : RemapMap) (orientation : R * R * R)
    : VRProcessor :=
  {| config := config self;
     target_width := target_width self;
     target_height := target_height self;
     fov_rad := fov_rad self;
     focal_length := focal_length self;
     half_ipd := half_ipd self;
     x_centered := x_centered self;
     y_centered := y_centered self;
     z_values := z_values self;
     x_flat := x_flat self;
     y_flat := y_flat self;
     z_flat := z_flat self;
     map_cache := Some maps;
     last_orientation := Some orientation |}.

Definition should_use_cache (self : VRProcessor) (current_orientation : R * R * R) : bool :=
  match last_orientation self with
  | None => false
  | Some (last_yaw, last_pitch, last_roll) =>
      let '(yaw, pitch, roll) := current_orientation in
      let threshold := Config.ORIENTATION_THRESHOLD (config self) in
      Rltb (Rabs (yaw - last_yaw)) threshold
      && Rltb (Rabs (pitch - last_pitch)) threshold
      && Rltb (Rabs (roll - last_roll)) threshold
  end.

(** [left_coords[:, 0] = xs; left_coords[:, 1] = ys; left_coords[:, 2] = zs]
    on [np.zeros((len(xs), 3))]: the rows of the matrix.  A column of
    another length cannot be assigned (numpy would repeat a column of
    length one; the three arrays of the program have one length). *)
Fixpoint columns (xs ys zs : array) : result (list (R * R * R)) :=
  match xs, ys, zs with
  | [], [], [] => Ok []
  | x :: xs', y :: ys', z :: zs' =>
      match columns xs' ys' zs' with
      | Ok rest => Ok ((x, y, z) :: rest)
      | Raise e => Raise e
      end
  | _, _, _ => Raise ValueError
  end.

(** [coords @ m] for an n x 3 array [coords], row by row. *)
Definition matmul_rows (coords : list (R * R * R)) (m : mat3) : list (R * R * R) :=
  map (fun v : R * R * R =>
         let '(x, y, z) := v in
         (x * m00 m + y * m10 m + z * m20 m,
          x * m01 m + y * m11 m + z * m21 m,
          x * m02 m + y * m12 m + z * m22 m)) coords.

(** One eye of the fallback: the masked assignment
    [screen[valid] = rotated[valid, k] / rotated[valid, 2] * f + c]
    on [np.full(n, -1.0)]. *)
Definition project_valid (rotated : list (R * R * R)) (focal_length : R)
    (target_width target_height : nat) : array * array :=
  (map (fun v : R * R * R =>
          let '(x, _, z) := v in
          if Rltb 0 z then x / z * focal_length + Config.num target_width / 2 else -1)
       rotated,
   map (fun v : R * R * R =>
          let '(_, y, z) := v in
          if Rltb 0 z then y / z * focal_length + Config.num target_height / 2 else -1)
       rotated).

Definition compute_vr_distortion_fallback (self : VRProcessor) (yaw pitch roll : R)
    : result RemapMap :=
  let rotation_matrix := create_rotation_matrix yaw pitch roll in
  (* Left eye *)
  (left_coords <-
     columns (map (fun x => x - half_ipd self) (x_flat self)) (y_flat self) (z_flat self) ;;
   let left_rotated := matmul_rows left_coords (transpose rotation_matrix) in
   let '(left_screen_x, left_screen_y) :=
     project_valid left_rotated (focal_length self) (target_width self) (target_height self) in
   left_map_x <- reshape left_screen_x (target_height self) (target_width self) ;;
   left_map_y <- reshape left_screen_y (target_height self) (target_width self) ;;
   (* Right eye *)
   right_coords <-
     columns (map (fun x => x + half_ipd self) (x_flat self)) (y_flat self) (z_flat self) ;;
   let right_rotated := matmul_rows right_coords (transpose rotation_matrix) in
   let '(right_screen_x, right_screen_y) :=
     project_valid right_rotated (focal_length self) (target_width self) (target_height self) in
   right_map_x <- reshape right_screen_x (target_height self) (target_width self) ;;
   right_map_y <- reshape right_screen_y (target_height self) (target_width self) ;;
   Ok (left_map_x, left_map_y, right_map_x, right_map_y))%py.

(** The recomputation of [compute_distortion_maps] (lines 102-115).
    [jit_works] says whether the numba backend is usable; when it is not
    the call of the compiled function raises. *)
Definition recompute (jit_works : bool) (self : VRProcessor) (yaw pitch roll : R)
    : result RemapMap :=
  let rotation_matrix := create_rotation_matrix yaw pitch roll in
  try_except
    (if jit_works
     then compute_vr_distortion (x_flat self) (y_flat self) (z_flat self)
            (half_ipd self) (focal_length self)
            (target_width self) (target_height self)
            rotation_matrix
            (target_height self) (target_width self)
     else Raise NumbaError)
    (fun _ => compute_vr_distortion_fallback self yaw pitch roll).

Definition compute_distortion_maps (jit_works : bool) (self : VRProcessor)
    (yaw pitch roll : R) : result (RemapMap * VRProcessor) :=
  let current_orientation := (yaw, pitch, roll) in
  match should_use_cache self current_orientation, map_cache self with
  | true, Some cached => Ok (cached, self)
  | _, _ =>
      (maps <- recompute jit_works self yaw pitch roll ;;
       Ok (maps, store self maps current_orientation))%py
  end.

(** [render_frame].  The image operations of OpenCV and numpy are outside
    the program: [remap] is [cv2.remap] with bilinear interpolation and a
    constant black border, [hstack] is [np.hstack] of two images, [shape]
    gives (height, width) and [resize] is [cv2.resize] to (width, height). *)
Section Render.
Variable Frame : Type.
Variable remap : Frame -> grid -> grid -> Frame.
Variable hstack : Frame -> Frame -> Frame.
Variable shape : Frame -> nat * nat.
Variable resize : Frame -> nat * nat -> Frame.

Definition render_frame (jit_works : bool) (self : VRProcessor) (frame : Frame)
    (yaw pitch roll : R) : result (Frame * VRProcessor) :=
  ('(left_map_x, left_map_y, right_map_x, right_map_y, self') <-
     compute_distortion_maps jit_works self yaw pitch roll ;;
   let left_eye := remap frame left_map_x left_map_y in
   let right_eye := remap frame right_map_x right_map_y in
   let combined_frame := hstack left_eye right_eye in
   let width := Config.WIDTH (config self) in
   let height := Config.HEIGHT (config self) in
   if negb (snd (shape combined_frame) =? width)%nat
      || negb (fst (shape combined_frame) =? height / 2)%nat
   then Ok (resize combined_frame (width, (height / 2)%nat), self')
   else Ok (combined_frame, self'))%py.
End Render.
End VRDistortion.

(** ** The remap maps, pixel by pixel

    Definitions in which the properties of the maps are stated. *)

Module Projection.
Import MathUtils SpecRotation VRDistortion.
Local Open Scope R_scope.

(** *** One pixel *)

(** The two map entries of a destination pixel whose point is [p]. *)
Definition screen_x (focal_length : R) (target_width : nat) (rot : mat3) (p : vec3) : R :=
  let '(rx, _, rz) := apply rot p in
  if Rltb 0 rz then rx / rz * focal_length + Config.num target_width / 2 else -1.

Definition screen_y (focal_length : R) (target_height : nat) (rot : mat3) (p : vec3) : R :=
  let '(_, ry, rz) := apply rot p in
  if Rltb 0 rz then ry / rz * focal_length + Config.num target_height / 2 else -1.

(** Section 4.5, step 2 of the specification for one rotated point. *)
Definition projected (focal_length : R) (target_width target_height : nat)
    (rotated : vec3) (sx sy : R) : Prop :=
  let '(rx, ry, rz) := rotated in
  (0 < rz ->
     sx = rx / rz * focal_length + Config.num target_width / 2
     /\ sy = ry / rz * focal_length + Config.num target_height / 2)
  /\ (rz <= 0 -> sx = -1 /\ sy = -1).

(** *** The four maps *)

(** The points of the two eyes for the flat index [i]. *)
Definition left_point (xs ys zs : array) (half_ipd : R) (i : nat) : vec3 :=
  (item xs i - half_ipd, item ys i, item zs i).
Definition right_point (xs ys zs : array) (half_ipd : R) (i : nat) : vec3 :=
  (item xs i + half_ipd, item ys i, item zs i).

(** The four flat arrays, then their reshaping. *)
Definition shaped (h w : nat) (lx ly rx ry : array) : result RemapMap :=
  (left_map_x <- reshape lx h w ;;
   left_map_y <- reshape ly h w ;;
   right_map_x <- reshape rx h w ;;
   right_map_y <- reshape ry h w ;;
   Ok (left_map_x, left_map_y, right_map_x, right_map_y))%py.

Definition flat_maps (xs ys zs : array) (half_ipd f : R) (tw th : nat) (rot : mat3)
    (h w : nat) : result RemapMap :=
  let range := seq 0 (length xs) in
  shaped h w
    (map (fun i => screen_x f tw rot (left_point xs ys zs half_ipd i)) range)
    (map (fun i => screen_y f th rot (left_point xs ys zs half_ipd i)) range)
    (map (fun i => screen_x f tw rot (right_point xs ys zs half_ipd i)) range)
    (map (fun i => screen_y f th rot (right_point xs ys zs half_ipd i)) range).

(** *** A processor whose arrays have the shape of its grid *)

Definition grid_shaped (self : VRProcessor) : Prop :=
  length (x_flat self) = (target_height self * target_width self)%nat
  /\ length (y_flat self) = length (x_flat self)
  /\ length (z_flat self) = length (x_flat self).

(** The maps for the rotation [rot], entry by entry. *)
Definition maps_of (self : VRProcessor) (rot : mat3) : RemapMap :=
  let range := seq 0 (length (x_flat self)) in
  let left := left_point (x_flat self) (y_flat self) (z_flat self) (half_ipd self) in
  let right := right_point (x_flat self) (y_flat self) (z_flat self) (half_ipd self) in
  let h := target_height self in
  let w := target_width self in
  (rows h w (map (fun i => screen_x (focal_length self) w rot (left i)) range),
   rows h w (map (fun i => screen_y (focal_length self) h rot (left i)) range),
   rows h w (map (fun i => screen_x (focal_length self) w rot (right i)) range),
   rows h w (map (fun i => screen_y (focal_length self) h rot (right i)) range)).

(** Every entry of the four maps is the projection of the rotated point
    of its eye, or the sentinel. *)
Definition pixels_projected (self : VRProcessor) (rot : mat3) (maps : RemapMap) : Prop :=
  let '(left_map_x, left_map_y, right_map_x, right_map_y) := maps in
  forall r c : nat,
    (r < target_height self)%nat -> (c < target_width self)%nat ->
    let i := (r * target_width self + c)%nat in
    let x_centered := item (x_flat self) i in
    let y_centered := item (y_flat self) i in
    let z := item (z_flat self) i in
    projected (focal_length self) (target_width self) (target_height self)
      (apply rot (x_centered - half_ipd self, y_centered, z))
      (entry left_map_x r c) (entry left_map_y r c)
    /\ projected (focal_length self) (target_width self) (target_height self)
         (apply rot (x_centered + half_ipd self, y_centered, z))
         (entry right_map_x r c) (entry right_map_y r c).
End Projection.

(** ** sensors/fusion.py: the shared orientation *)

Module Fusion.
(** The dictionary [sensor_data], which always has its three keys. *)
Record SensorData : Type := mkSensorData {
  yaw : R;
  pitch : R;
  roll : R
}.

Record SensorFusion : Type := mkSensorFusion {
  sensor_data : SensorData
}.

(** [__init__]: [{"yaw": 0.0, "pitch": 0.0, "roll": 0.0}] *)
Definition new : SensorFusion := mkSensorFusion (mkSensorData 0 0 0).

(** The copy taken under the lock. *)
Definition get_sensor_data (self : SensorFusion) : SensorData := sensor_data self.
End Fusion.

(** ** ui/display.py: the render loop *)

Module Display.
Import PyQueue VRDistortion.
Local Open Scope R_scope.

Section App.
Variable Frame : Type.
Variable remap : Frame -> grid -> grid -> Frame.
Variable hstack : Frame -> Frame -> Frame.
Variable shape : Frame -> nat * nat.
Variable resize : Frame -> nat * nat -> Frame.
(** Whether the numba backend is usable in this process. *)
Variable jit_works : bool.

(** The part of [self] that the render thread touches. *)
Record VRDisplayApp : Type := mkApp {
  config : Config.Config;
  frame_buffer : Queue Frame;
  render_buffer : Queue Frame;
  vr_processor : VRProcessor;
  sensor_fusion : Fusion.SensorFusion
}.

(** Lines 92-96: "Get current orientation with calibration offsets". *)
Definition current_orientation (self : VRDisplayApp) : R * R * R :=
  let sensor_data := Fusion.get_sensor_data (sensor_fusion self) in
  let yaw := Fusion.yaw sensor_data + 100 in
  let pitch := Fusion.pitch sensor_data + 12 in
  let roll := Fusion.roll sensor_data in
  (yaw, pitch, roll).

(** One turn of [while self.running:] in [render_frame_thread].  An
    exception other than [queue.Empty] ends the thread. *)
Definition render_frame_thread_step (self : VRDisplayApp) : result VRDisplayApp :=
  if full (render_buffer self) then Ok self
  else if empty (frame_buffer self) then Ok self
  else
    match get_nowait (frame_buffer self) with
    | Raise QueueEmpty => Ok self
    | Raise e => Raise e
    | Ok (frame, frame_buffer') =>
        let '(yaw, pitch, roll) := current_orientation self in
        match render_frame remap hstack shape resize jit_works
                (vr_processor self) frame yaw pitch roll with
        | Raise QueueEmpty => Ok (mkApp (config self) frame_buffer'
                                    (render_buffer self) (vr_processor self)
                                    (sensor_fusion self))
        | Raise e => Raise e
        | Ok (combined_frame, vr_processor') =>
            match put_drop_oldest (render_buffer self) combined_frame with
            | Ok render_buffer' =>
                Ok (mkApp (config self) frame_buffer' render_buffer'
                      vr_processor' (sensor_fusion self))
            | Raise e => Raise e
            end
        end
    end.
End App.

(** The reading of the specification for the calibration offsets: each of
    the two is the value of a numeric setting of the configuration. *)
Definition offsets_are_settings (Frame : Type) (cfg : Config.Config) : Prop :=
  exists yaw_offset pitch_offset : R,
    In yaw_offset (map snd (Config.numeric_settings cfg))
    /\ In pitch_offset (map snd (Config.numeric_settings cfg))
    /\ forall self : VRDisplayApp Frame,
         config self = cfg ->
         let sensor_data := Fusion.get_sensor_data (sensor_fusion self) in
         current_orientation self
         = (Fusion.yaw sensor_data + yaw_offset,
            Fusion.pitch sensor_data + pitch_offset,
            Fusion.roll sensor_data).
End Display.

(** ** Concrete inputs *)

Module Examples.
Import MathUtils VRDistortion.
Local Open Scope R_scope.

(** config.py with [IPD = 0]. *)
Definition config_no_ipd : Config.Config :=
  Config.mkConfig 2560 1440 1280 720 0 90 2 "/dev/tty.usbserial-0001" 115200
    0.05 240 240 90 2 0.5 5 (0, 255, 0)%nat "white" ("Arial"%string, 24%nat).

(** config.py with a capture of 2 x 1 pixels, so that each eye has one
    pixel. *)
Definition small_config : Config.Config :=
  Config.mkConfig 2560 1440 2 1 63 90 2 "/dev/tty.usbserial-0001" 115200
    0.05 240 240 90 2 0.5 5 (0, 255, 0)%nat "white" ("Arial"%string, 24%nat).

(** The processor that [__init__] builds for [small_config], with a given
    cache and recorded orientation. *)
Definition pixel_processor (cache : option RemapMap) (last : option (R * R * R))
    : VRProcessor :=
  let f := Config.num 1 / 2 / tan (radians 90 / 2) in
  {| config := small_config;
     target_width := 1;
     target_height := 1;
     fov_rad := radians 90;
     focal_length := f;
     half_ipd := 63 * f / (2 * 1000) / 2;
     x_centered := [[Config.num 0 - Config.num 1 / 2]];
     y_centered := [[Config.num 0 - Config.num 1 / 2]];
     z_values := [[1 * f]];
     x_flat := [Config.num 0 - Config.num 1 / 2];
     y_flat := [Config.num 0 - Config.num 1 / 2];
     z_flat := [1 * f];
     map_cache := cache;
     last_orientation := last |}.

(** Four maps of one pixel that are told apart from every computed map. *)
Definition marked_maps : RemapMap := ([[7]], [[7]], [[7]], [[7]]).

(** Frames are their sequence numbers; the image operations keep the
    number of the frame they are given first. *)
Definition remap (frame : nat) (map_x map_y : grid) : nat := frame.
Definition hstack (left_eye right_eye : nat) : nat := left_eye.
Definition shape (frame : nat) : nat * nat := (1440 / 2, 2560)%nat.
Definition resize (frame : nat) (size : nat * nat) : nat := frame.

(** The application with frame 7 waiting, nothing rendered yet, the
    sensor at rest, and a cache for the orientation (100, 12, 0). *)
Definition app : Display.VRDisplayApp nat :=
  Display.mkApp Config.config
    (PyQueue.mkQueue 2 [7%nat])
    (PyQueue.new 2)
    (pixel_processor (Some marked_maps) (Some (100, 12, 0)))
    Fusion.new.
End Examples.

(** ** sensors/fusion.py: the fusion turn *)

Module FusionLoop.
Import PyQueue Filters.

(** The three filters of [self]; only the fusion turn touches them. *)
Record AxisFilters : Type := mkAxisFilters {
  yaw_filter : LowPassFilter;
  pitch_filter : LowPassFilter;
  roll_filter : LowPassFilter
}.

(** [__init__]: one filter per axis, each with [SENSOR_FILTER_ALPHA]. *)
Definition new_filters (config : Config.Config) : AxisFilters :=
  mkAxisFilters (Filters.new (Config.SENSOR_FILTER_ALPHA config))
                (Filters.new (Config.SENSOR_FILTER_ALPHA config))
                (Filters.new (Config.SENSOR_FILTER_ALPHA config)).

(** What [process_sensor_data] leaves: the filters, the shared orientation
    and the sensor queue. *)
Definition FusionState : Type :=
  (AxisFilters * Fusion.SensorFusion * Queue Reader.Sample)%type.

(** [while not self.sensor_queue.empty():] with its body, inside
    [try ... except queue.Empty: pass].  [fuel] bounds the number of turns;
    [task_done()] only counts and is left out. *)
Fixpoint process_loop (fuel : nat) (filters : AxisFilters)
    (self : Fusion.SensorFusion) (sensor_queue : Queue Reader.Sample) : FusionState :=
  match fuel with
  | O => (filters, self, sensor_queue)
  | S fuel' =>
      if empty sensor_queue then (filters, self, sensor_queue)
      else
        match get_nowait sensor_queue with
        | Ok (data, sensor_queue') =>
            let (filtered_yaw, yaw_filter') :=
              update (yaw_filter filters) (Reader.yaw data) in
            let (filtered_pitch, pitch_filter') :=
              update (pitch_filter filters) (Reader.pitch data) in
            let (filtered_roll, roll_filter') :=
              update (roll_filter filters) (Reader.roll data) in
            process_loop fuel'
              (mkAxisFilters yaw_filter' pitch_filter' roll_filter')
              (Fusion.mkSensorFusion
                 (Fusion.mkSensorData filtered_yaw filtered_pitch filtered_roll))
              sensor_queue'
        | Raise _ => (filters, self, sensor_queue)
        end
  end.

(** The loop takes one sample per turn, so as many turns as there are
    samples in the queue are enough. *)
Definition process_sensor_data (filters : AxisFilters) (self : Fusion.SensorFusion)
    (sensor_queue : Queue Reader.Sample) : FusionState :=
  process_loop (S (qsize sensor_queue)) filters self sensor_queue.
End FusionLoop.

(** ** processing/capture.py: the cursor overlay *)

Module Capture.
Local Open Scope R_scope.

(** [int(x)] of a float: the integer towards zero. *)
Definition py_int (x : R) : Z :=
  if Rle_dec 0 x then Int_part x else (- Int_part (- x))%Z.

Section Overlay.
Variable Frame : Type.
(** [cv2.circle(frame, center, radius, color, -1)] *)
Variable circle : Frame -> Z * Z -> nat -> nat * nat * nat -> Frame.

(** The fields of [self] that [overlay_cursor] reads. *)
Record ScreenCapture : Type := mkScreenCapture {
  config : Config.Config;
  screen_width : nat;
  screen_height : nat
}.

(** The position at which the cursor is drawn; each of the two true
    divisions raises on a zero screen dimension. *)
Definition scaled_position (self : ScreenCapture) (x y : Z) : result (Z * Z) :=
  if (screen_width self =? 0)%nat then Raise ZeroDivisionError else
  let x' := py_int (IZR x * (Config.num (Config.CAPTURE_WIDTH (config self))
                             / Config.num (screen_width self))) in
  if (screen_height self =? 0)%nat then Raise ZeroDivisionError else
  let y' := py_int (IZR y * (Config.num (Config.CAPTURE_HEIGHT (config self))
                             / Config.num (screen_height self))) in
  Ok (x', y').

Definition overlay_cursor (self : ScreenCapture) (frame : Frame) (x y : Z)
    : result Frame :=
  match scaled_position self x y with
  | Ok center =>
      Ok (circle frame center (Config.CURSOR_SIZE (config self))
            (Config.CURSOR_COLOR (config self)))
  | Raise e => Raise e
  end.
End Overlay.
End Capture.

(** ** Definitions in which further properties are stated *)

Module Geometry.
Import MathUtils SpecRotation.
Local Open Scope R_scope.

Definition identity : mat3 :=
  {| m00 := 1; m01 := 0; m02 := 0;
     m10 := 0; m11 := 1; m12 := 0;
     m20 := 0; m21 := 0; m22 := 1 |}.

Definition det (m : mat3) : R :=
  m00 m * (m11 m * m22 m - m12 m * m21 m)
  - m01 m * (m10 m * m22 m - m12 m * m20 m)
  + m02 m * (m10 m * m21 m - m11 m * m20 m).

(** The square of the length of a vector. *)
Definition norm2 (p : vec3) : R :=
  let '(x, y, z) := p in x * x + y * y + z * z.

(** The three matrices that [create_rotation_matrix] multiplies. *)
Definition rot_yaw (yaw_rad : R) : mat3 :=
  {| m00 := cos yaw_rad;   m01 := 0; m02 := sin yaw_rad;
     m10 := 0;             m11 := 1; m12 := 0;
     m20 := - sin yaw_rad; m21 := 0; m22 := cos yaw_rad |}.

Definition rot_pitch (pitch_rad : R) : mat3 :=
  {| m00 := 1; m01 := 0;             m02 := 0;
     m10 := 0; m11 := cos pitch_rad; m12 := - sin pitch_rad;
     m20 := 0; m21 := sin pitch_rad; m22 := cos pitch_rad |}.

Definition rot_roll (roll_rad : R) : mat3 :=
  {| m00 := cos roll_rad; m01 := - sin roll_rad; m02 := 0;
     m10 := sin roll_rad; m11 := cos roll_rad;   m12 := 0;
     m20 := 0;            m21 := 0;              m22 := 1 |}.

(** A matrix with orthonormal rows and columns, of determinant 1, that
    keeps lengths. *)
Definition proper_rotation (m : mat3) : Prop :=
  matmul m (transpose m) = identity
  /\ matmul (transpose m) m = identity
  /\ det m = 1
  /\ forall p, norm2 (apply m p) = norm2 p.
End Geometry.

Module Coherence.
Import MathUtils VRDistortion Projection.
Local Open Scope R_scope.

(** The cached maps are the maps of the recorded orientation. *)
Definition coherent (self : VRProcessor) : Prop :=
  forall cached, map_cache self = Some cached ->
    exists yaw pitch roll,
      last_orientation self = Some (yaw, pitch, roll)
      /\ cached = maps_of self (create_rotation_matrix yaw pitch roll).

(** The two orientations differ by less than [threshold] on every axis. *)
Definition within (threshold : R) (a b : R * R * R) : Prop :=
  let '(yaw, pitch, roll) := a in
  let '(yaw', pitch', roll') := b in
  Rabs (yaw - yaw') < threshold
  /\ Rabs (pitch - pitch') < threshold
  /\ Rabs (roll - roll') < threshold.

(** A grid of [h] rows of [w] entries. *)
Definition has_shape (h w : nat) (g : grid) : Prop :=
  length g = h /\ Forall (fun row => length row = w) g.
End Coherence.

Module Ingest.
Import Re Reader.

(** The sample that a line carries, if its text has a match whose three
    groups are numbers. *)
Definition sample_of_line (raw_line : string) (now : R) : option Sample :=
  match search pattern (strip raw_line) with
  | Some m =>
      match float (group m 1), float (group m 2), float (group m 3) with
      | Ok yaw, Ok pitch, Ok roll => Some (mkSample yaw pitch roll now)
      | _, _, _ => None
      end
  | None => None
  end.

(** A reading is a line that carries the sample. *)
Definition carries (r : reading) (s : Sample) : Prop :=
  exists raw_line now, r = Line raw_line now /\ sample_of_line raw_line now = Some s.

(** What a queue of capacity [n] keeps of the items offered to it when the
    new item is dropped on a full queue; capacity 0 is unbounded. *)
Definition first_kept (A : Type) (n : nat) (l : list A) : list A :=
  match n with O => l | S _ => firstn n l end.
End Ingest.

(** ** More concrete inputs *)

Module MoreExamples.
Import MathUtils VRDistortion.
Local Open Scope R_scope.

(** config.py with a capture of 2 x 1 pixels and the threshold 0. *)
Definition exact_config : Config.Config :=
  Config.mkConfig 2560 1440 2 1 63 90 2 "/dev/tty.usbserial-0001" 115200
    0.05 240 240 90 2 0 5 (0, 255, 0)%nat "white" ("Arial"%string, 24%nat).

(** The one-pixel processor of [Examples] with that configuration. *)
Definition exact_processor (cache : option RemapMap) (last : option (R * R * R))
    : VRProcessor :=
  let p := Examples.pixel_processor cache last in
  {| config := exact_config;
     target_width := target_width p;
     target_height := target_height p;
     fov_rad := fov_rad p;
     focal_length := focal_length p;
     half_ipd := half_ipd p;
     x_centered := x_centered p;
     y_centered := y_centered p;
     z_values := z_values p;
     x_flat := x_flat p;
     y_flat := y_flat p;
     z_flat := z_flat p;
     map_cache := cache;
     last_orientation := last |}.

(** Images known by their size only, (height, width). *)
Definition sized_remap (frame : nat * nat) (map_x map_y : grid) : nat * nat := frame.
Definition sized_hstack (left_eye right_eye : nat * nat) : nat * nat :=
  (fst left_eye, (snd left_eye + snd right_eye)%nat).
Definition sized_shape (frame : nat * nat) : nat * nat := frame.
Definition sized_resize (frame : nat * nat) (size : nat * nat) : nat * nat :=
  (snd size, fst size).

(** A capture of the 2560 x 1440 screen under config.py. *)
Definition screen : Capture.ScreenCapture :=
  Capture.mkScreenCapture Config.config 2560 1440.

(** A sensor queue with two samples. *)
Definition two_samples : PyQueue.Queue Reader.Sample :=
  PyQueue.mkQueue 10 [Reader.mkSample 10 2 (-1) 0; Reader.mkSample 30 4 1 1].
End MoreExamples.

(** * Properties *)

(** ** The bounded channels *)

Section ChannelFacts.
Import PyQueue.
Variable A : Type.

Lemma most_recent_short (n : nat) (l : list A) :
  length l <= n -> most_recent n l = l.
Proof.
  intros H. unfold most_recent.
  replace (length l - n) with 0 by lia. reflexivity.
Qed.

Lemma most_recent_length (n : nat) (l : list A) :
  length (most_recent n l) = Nat.min n (length l).
Proof. unfold most_recent. rewrite length_skipn. lia. Qed.

Lemma most_recent_app (n : nat) (l xs : list A) :
  most_recent n (most_recent n l ++ xs) = most_recent n (l ++ xs).
Proof.
  destruct (Nat.le_gt_cases (length l) n) as [Hle | Hgt].
  - now rewrite (most_recent_short l Hle).
  - unfold most_recent at 1 3.
    rewrite !length_app, most_recent_length.
    replace (Nat.min n (length l)) with n by lia.
    replace (length l + length xs - n) with ((length l - n) + length xs) by lia.
    replace (n + length xs - n) with (length xs) by lia.
    rewrite Nat.add_comm, <- skipn_skipn.
    f_equal. unfold most_recent.
    rewrite skipn_app.
    replace (length l - n - length l) with 0 by lia.
    reflexivity.
Qed.

Lemma full_iff (q : Queue A) :
  full q = true <-> 0 < maxsize q /\ maxsize q <= qsize q.
Proof.
  unfold full. rewrite andb_true_iff, Nat.ltb_lt, Nat.leb_le. tauto.
Qed.

(** One push, whatever the fill level. *)
Lemma put_drop_oldest_items (q : Queue A) (x : A) :
  1 <= maxsize q -> qsize q <= maxsize q ->
  put_drop_oldest q x
  = Ok (mkQueue (maxsize q) (most_recent (maxsize q) (items q ++ [x]))).
Proof.
  intros Hn Hcap. unfold put_drop_oldest, put_nowait.
  destruct (full q) eqn:Hfull.
  - apply full_iff in Hfull. destruct Hfull as [_ Hge].
    unfold qsize in *. unfold get_nowait.
    destruct q as [n [| y rest]]; cbn [items maxsize length] in *; [lia |].
    unfold full, qsize. cbn [items maxsize].
    replace (n <=? length rest) with false
      by (symmetry; apply Nat.leb_gt; lia).
    rewrite andb_false_r.
    unfold most_recent.
    replace (length ((y :: rest) ++ [x]) - n) with 1
      by (rewrite length_app; cbn [length]; lia).
    reflexivity.
  - rewrite most_recent_short; [reflexivity |].
    rewrite length_app. simpl.
    assert (Hlt : ~ (0 < maxsize q /\ maxsize q <= qsize q))
      by (rewrite <- full_iff, Hfull; discriminate).
    unfold qsize in *. lia.
Qed.

Lemma put_all_items (xs : list A) : forall q : Queue A,
  1 <= maxsize q -> qsize q <= maxsize q ->
  put_all q xs
  = Ok (mkQueue (maxsize q) (most_recent (maxsize q) (items q ++ xs))).
Proof.
  induction xs as [| x xs IH]; intros q Hn Hcap.
  - simpl. rewrite app_nil_r, most_recent_short by exact Hcap.
    now destruct q.
  - simpl. rewrite put_drop_oldest_items by assumption.
    rewrite IH; simpl.
    + rewrite most_recent_app, <- app_assoc. reflexivity.
    + exact Hn.
    + unfold qsize. simpl. rewrite most_recent_length. lia.
Qed.

(** C6.  In a frame or output channel of capacity [n >= 1] that holds at
    most [n] items: a push into the full channel removes the oldest item
    and appends the new one; any sequence of pushes succeeds without
    blocking (only the [_nowait] operations are used and none of them
    raises) and leaves the [n] most recent items in arrival order; so
    [n + 1] pushes into the new channel leave all but the first. *)
Theorem channel_keeps_most_recent (n : nat) (q : Queue A) (xs : list A) (x : A) :
  1 <= n -> maxsize q = n -> qsize q <= n ->
  (full q = true ->
     exists oldest rest,
       items q = oldest :: rest /\
       put_drop_oldest q x = Ok (mkQueue n (rest ++ [x])))
  /\ put_all q xs = Ok (mkQueue n (most_recent n (items q ++ xs)))
  /\ (length xs = n + 1 -> put_all (new n) xs = Ok (mkQueue n (tl xs))).
Proof.
  intros Hn Hmax Hcap. subst n. repeat split.
  - intros Hfull. apply full_iff in Hfull.
    destruct q as [n [| y rest]]; unfold qsize in *;
      cbn [items maxsize length] in *; [lia |].
    exists y, rest. split; [reflexivity |].
    rewrite put_drop_oldest_items by (unfold qsize; cbn [items maxsize length]; lia).
    cbn [items maxsize]. unfold most_recent.
    replace (length ((y :: rest) ++ [x]) - n) with 1
      by (rewrite length_app; cbn [length]; lia).
    reflexivity.
  - now apply put_all_items.
  - intros Hlen. rewrite put_all_items by (unfold qsize; simpl; lia).
    simpl. unfold most_recent. rewrite Hlen.
    replace (maxsize q + 1 - maxsize q) with 1 by lia.
    destruct xs; reflexivity.
Qed.
End ChannelFacts.

(** C6 at the shipped capacity [FRAME_BUFFER_SIZE = 2]: three frames, numbered
    in arrival order, pushed into the new channel. *)
Lemma channel_keeps_most_recent_witness :
  PyQueue.put_all (PyQueue.new 2) [1; 2; 3] = Ok (PyQueue.mkQueue 2 [2; 3]).
Proof.
  destruct (@channel_keeps_most_recent nat 2 (PyQueue.new 2) [1; 2; 3] 0)
    as [_ [_ H]].
  - lia.
  - reflexivity.
  - unfold PyQueue.qsize. simpl. lia.
  - apply H. reflexivity.
Defined.

(** ** The orientation filter *)

Section FilterFacts.
Import Filters.
Local Open Scope R_scope.

Lemma update_alpha (self : LowPassFilter) (raw : R) :
  alpha (snd (update self raw)) = alpha self.
Proof. unfold update. now destruct (value self). Qed.

Lemma update_value (self : LowPassFilter) (raw : R) :
  value (snd (update self raw)) = Some (fst (update self raw)).
Proof. unfold update. now destruct (value self). Qed.

Lemma updates_cons (self : LowPassFilter) (raw : R) (rest : list R) :
  fst (updates self (raw :: rest))
  = fst (update self raw) :: fst (updates (snd (update self raw)) rest).
Proof.
  simpl. destruct (update self raw) as [out self1]. simpl.
  now destruct (updates self1 rest).
Qed.

Lemma updates_length (raws : list R) : forall self,
  length (fst (updates self raws)) = length raws.
Proof.
  induction raws as [| raw rest IH]; intros self; [reflexivity |].
  rewrite updates_cons. simpl. now rewrite IH.
Qed.

(** The first output of a run that starts with a stored value. *)
Lemma updates_head (self : LowPassFilter) (previous raw : R) (rest : list R) :
  value self = Some previous ->
  nth 0 (fst (updates self (raw :: rest))) 0
  = alpha self * raw + (1 - alpha self) * previous.
Proof.
  intros Hv. rewrite updates_cons. simpl. unfold update. now rewrite Hv.
Qed.

(** Every output but the first blends the input with the output before. *)
Lemma updates_blend (raws : list R) : forall (self : LowPassFilter) (k : nat),
  (S k < length raws)%nat ->
  nth (S k) (fst (updates self raws)) 0
  = alpha self * nth (S k) raws 0
    + (1 - alpha self) * nth k (fst (updates self raws)) 0.
Proof.
  induction raws as [| raw rest IH]; intros self k Hk; simpl in Hk; [lia |].
  rewrite updates_cons.
  change (nth (S k) (raw :: rest) 0) with (nth k rest 0).
  change (nth (S k) (fst (update self raw) :: fst (updates (snd (update self raw)) rest)) 0)
    with (nth k (fst (updates (snd (update self raw)) rest)) 0).
  destruct k as [| k].
  - destruct rest as [| raw1 rest1]; simpl in Hk; [lia |].
    rewrite (@updates_head _ (fst (update self raw))) by apply update_value.
    now rewrite update_alpha.
  - rewrite IH by lia. now rewrite update_alpha.
Qed.

Lemma blend_between (a previous raw : R) :
  0 < a < 1 ->
  Rmin previous raw <= a * raw + (1 - a) * previous <= Rmax previous raw.
Proof.
  intros [H0 H1]. unfold Rmin, Rmax.
  destruct (Rle_dec previous raw); split; nra.
Qed.

(** C9.  With [alpha] in (0, 1], fixed when the filter is made: a call on
    the empty state returns and stores [raw]; a call on a stored value
    [previous] returns and stores [alpha * raw + (1 - alpha) * previous],
    which lies between [previous] and [raw] when [alpha < 1] and is [raw]
    when [alpha = 1]; [alpha] never changes.  So in a run from the empty
    state the first output is the first input and every later output is
    the blend of its input with the output before it. *)
Theorem low_pass_filter_update (a : R) (raws : list R) (self : LowPassFilter) (raw : R) :
  0 < a <= 1 -> alpha self = a ->
  (value self = None ->
     update self raw = (raw, mkLowPassFilter a (Some raw)))
  /\ (forall previous, value self = Some previous ->
        let v := a * raw + (1 - a) * previous in
        update self raw = (v, mkLowPassFilter a (Some v))
        /\ (a < 1 -> Rmin previous raw <= v <= Rmax previous raw)
        /\ (a = 1 -> v = raw))
  /\ (let outs := fst (updates (new a) raws) in
      length outs = length raws
      /\ (raws <> [] -> nth 0 outs 0 = nth 0 raws 0)
      /\ forall k, (S k < length raws)%nat ->
           nth (S k) outs 0 = a * nth (S k) raws 0 + (1 - a) * nth k outs 0
           /\ (a < 1 -> Rmin (nth k outs 0) (nth (S k) raws 0) <= nth (S k) outs 0
                        <= Rmax (nth k outs 0) (nth (S k) raws 0))
           /\ (a = 1 -> nth (S k) outs 0 = nth (S k) raws 0)).
Proof.
  intros [Ha0 Ha1] Halpha. split; [| split].
  - intros Hv. unfold update. now rewrite Hv, Halpha.
  - intros previous Hv v. split; [| split].
    + unfold update. now rewrite Hv, Halpha.
    + intros Hlt. apply blend_between. lra.
    + intros H1. unfold v. rewrite H1. ring.
  - cbv zeta. split; [apply updates_length | split].
    + intros Hne. destruct raws as [| raw0 rest]; [contradiction |].
      rewrite updates_cons. reflexivity.
    + intros k Hk.
      pose proof (@updates_blend raws (new a) k Hk) as Hb.
      change (alpha (new a)) with a in Hb.
      split; [exact Hb | split].
      * intros Hlt. rewrite Hb. apply blend_between. lra.
      * intros H1. rewrite Hb, H1. ring.
Qed.
End FilterFacts.

(** C9 at the shipped [SENSOR_FILTER_ALPHA = 0.05]: the inputs 10 and 30. *)
Lemma low_pass_filter_update_witness :
  fst (Filters.updates (Filters.new 0.05) [10; 30]%R) = [10; 0.05 * 30 + (1 - 0.05) * 10]%R.
Proof.
  destruct (@low_pass_filter_update 0.05 [10; 30]%R (Filters.new 0.05) 10%R)
    as [_ [_ [Hlen [H0 Hk]]]].
  - lra.
  - reflexivity.
  - destruct (Hk 0%nat) as [H1 _]; [simpl; lia |].
    specialize (H0 ltac:(discriminate)).
    destruct (fst (Filters.updates (Filters.new 0.05) [10; 30]%R))
      as [| o0 [| o1 [| o2 outs]]]; simpl in Hlen; try discriminate.
    simpl in H0, H1. now rewrite H0, H1, H0.
Defined.

(** ** The rotation matrix *)

Section RotationFacts.
Import MathUtils SpecRotation.
Local Open Scope R_scope.

Lemma mat3_eq (a b : mat3) :
  m00 a = m00 b -> m01 a = m01 b -> m02 a = m02 b ->
  m10 a = m10 b -> m11 a = m11 b -> m12 a = m12 b ->
  m20 a = m20 b -> m21 a = m21 b -> m22 a = m22 b ->
  a = b.
Proof. destruct a, b. simpl. intros. subst. reflexivity. Qed.

Ltac mat3_ring :=
  apply mat3_eq; cbn [m00 m01 m02 m10 m11 m12 m20 m21 m22]; ring.

Lemma matmul_assoc (a b c : mat3) :
  matmul (matmul a b) c = matmul a (matmul b c).
Proof. unfold matmul. mat3_ring. Qed.

(** The entries of the product, with [c] and [s] the cosine and the sine
    of each angle. *)
Lemma create_rotation_matrix_entries (yaw pitch roll : R) :
  let cy := cos (radians yaw) in let sy := sin (radians yaw) in
  let cp := cos (radians pitch) in let sp := sin (radians pitch) in
  let cr := cos (radians roll) in let sr := sin (radians roll) in
  create_rotation_matrix yaw pitch roll
  = {| m00 := cy * cr + sy * sp * sr;
       m01 := sy * sp * cr - cy * sr;
       m02 := sy * cp;
       m10 := cp * sr;
       m11 := cp * cr;
       m12 := - sp;
       m20 := cy * sp * sr - sy * cr;
       m21 := sy * sr + cy * sp * cr;
       m22 := cy * cp |}.
Proof. cbv zeta. unfold create_rotation_matrix, matmul. mat3_ring. Qed.

(** At the angles 0 the matrix is the identity. *)
Lemma create_rotation_matrix_0 :
  create_rotation_matrix 0 0 0
  = {| m00 := 1; m01 := 0; m02 := 0;
       m10 := 0; m11 := 1; m12 := 0;
       m20 := 0; m21 := 0; m22 := 1 |}.
Proof.
  rewrite create_rotation_matrix_entries. cbv zeta.
  unfold radians. rewrite Rmult_0_l, cos_0, sin_0. mat3_ring.
Qed.

(** C7.  For all angles in degrees, the matrix of [create_rotation_matrix]
    is the product [R_yaw . R_pitch . R_roll] (in either bracketing) of
    the right-handed rotations by the angles in radians about the
    vertical, the horizontal and the depth axis. *)
Theorem create_rotation_matrix_is_yaw_pitch_roll (yaw pitch roll : R) :
  create_rotation_matrix yaw pitch roll
  = matmul (matmul (R_yaw yaw) (R_pitch pitch)) (R_roll roll)
  /\ create_rotation_matrix yaw pitch roll
     = matmul (R_yaw yaw) (matmul (R_pitch pitch) (R_roll roll)).
Proof.
  assert (H : create_rotation_matrix yaw pitch roll
              = matmul (matmul (R_yaw yaw) (R_pitch pitch)) (R_roll roll)).
  { unfold create_rotation_matrix, R_yaw, R_pitch, R_roll,
      right_handed_rotation, vertical_axis, horizontal_axis, depth_axis, matmul.
    mat3_ring. }
  split; [exact H |]. rewrite H. apply matmul_assoc.
Qed.
End RotationFacts.

(** ** Sensor ingest *)

Section ReaderFacts.
Import Re Reader PyQueue.
Local Open Scope string_scope.

(** *** What a match can capture *)

Lemma string_app_nil_r (s : string) : s ++ "" = s.
Proof. induction s as [| c s IH]; simpl; [reflexivity | now rewrite IH]. Qed.

Lemma string_app_assoc (s t u : string) : (s ++ t) ++ u = s ++ (t ++ u).
Proof. induction s as [| c s IH]; simpl; [reflexivity | now rewrite IH]. Qed.

Lemma greedy_inv (T : Type) (cls : charclass) (k : string -> string -> option T) :
  forall (s : string) (min : nat) (taken : string) (r : T),
    greedy cls min k taken s = Some r ->
    exists t rest,
      all_in cls t = true /\ (min <= String.length t)%nat /\ k (taken ++ t) rest = Some r.
Proof.
  assert (Hstop : forall (s : string) (min : nat) (taken : string) (r : T),
             match min with O => k taken s | S _ => None end = Some r ->
             exists t rest,
               all_in cls t = true /\ (min <= String.length t)%nat
               /\ k (taken ++ t) rest = Some r).
  { intros s [| min] taken r H; [| discriminate].
    exists "", s. rewrite string_app_nil_r. auto. }
  induction s as [| c s IH]; intros min taken r H; simpl in H.
  - now apply Hstop in H.
  - destruct (in_class cls c) eqn:Hc; [| now apply Hstop in H].
    destruct (greedy cls (pred min) k (taken ++ String c "") s) as [r' |] eqn:Hg;
      [| now apply Hstop in H].
    injection H as ->.
    apply IH in Hg. destruct Hg as (t & rest & Hall & Hmin & Hk).
    exists (String c t), rest. simpl. rewrite Hc, Hall.
    rewrite string_app_assoc in Hk. simpl in Hk.
    repeat split; [lia | exact Hk].
Qed.

(** Every group of a match is a non-empty text over the class of the
    group. *)
Lemma match_here_groups (p : list node) : forall (s : string) (m : list string),
  match_here p s = Some m ->
  Forall2 (fun cls g => all_in cls g = true /\ g <> "") (group_classes p) m.
Proof.
  induction p as [| [text | cls | cls] p IH]; intros s m H; simpl in H.
  - injection H as <-. constructor.
  - destruct (literal text s); [| discriminate]. simpl. eauto.
  - apply greedy_inv in H. destruct H as (t & rest & _ & _ & H). simpl. eauto.
  - apply greedy_inv in H. destruct H as (t & rest & Hall & Hlen & H).
    destruct (match_here p rest) as [m' |] eqn:Hm; [| discriminate].
    injection H as <-. simpl. constructor; [| eauto].
    split; [exact Hall |]. destruct t; simpl in Hlen; [lia | discriminate].
Qed.

Lemma search_groups (p : list node) : forall (s : string) (m : list string),
  search p s = Some m ->
  Forall2 (fun cls g => all_in cls g = true /\ g <> "") (group_classes p) m.
Proof.
  induction s as [| c s IH]; intros m H; simpl in H;
    destruct (match_here p _) eqn:Hm;
    try discriminate; try (injection H as <-; eapply match_here_groups; eassumption).
  now apply IH.
Qed.

(** X13.  A match of the sensor pattern, wherever in the line it is found,
    has exactly three groups, each a non-empty text of minus signs, digits
    and points: the texts on which [float] is defined above. *)
Lemma pattern_groups (line : string) (m : list string) :
  search pattern line = Some m ->
  exists g1 g2 g3,
    m = [g1; g2; g3]
    /\ (all_in NumberChar g1 = true /\ g1 <> "")
    /\ (all_in NumberChar g2 = true /\ g2 <> "")
    /\ (all_in NumberChar g3 = true /\ g3 <> "").
Proof.
  intros H. apply search_groups in H. simpl in H.
  inversion H as [| c1 g1 l1 m1 H1 H']; subst.
  inversion H' as [| c2 g2 l2 m2 H2 H'']; subst.
  inversion H'' as [| c3 g3 l3 m3 H3 H''']; subst.
  inversion H'''; subst.
  exists g1, g2, g3. auto.
Qed.

(** *** One line *)

(** A line without a match is dropped: the queue is as before and nothing
    is raised. *)
Lemma handle_line_no_match (q : Queue Sample) (raw_line : string) (now : R) :
  search pattern (strip raw_line) = None ->
  handle_line q raw_line now = Ok q.
Proof.
  intros H. unfold handle_line. destruct raw_line; [reflexivity |].
  now rewrite H.
Qed.

(** A line with a match whose three groups are numbers gives a sample,
    which is queued unless the queue is full. *)
Lemma handle_line_numbers (q : Queue Sample) (raw_line : string) (now : R)
    (m : list string) (y p r : R) :
  search pattern (strip raw_line) = Some m ->
  float (group m 1) = Ok y -> float (group m 2) = Ok p -> float (group m 3) = Ok r ->
  handle_line q raw_line now
  = Ok (if full q then q
        else mkQueue (maxsize q) (items q ++ [mkSample y p r now])).
Proof.
  intros Hs Hy Hp Hr. unfold handle_line.
  destruct raw_line as [| c raw'].
  - cbv in Hs. discriminate Hs.
  - rewrite Hs, Hy, Hp, Hr. simpl. unfold put_nowait.
    now destruct (full q).
Qed.

(** A line with a match one of whose groups is not a number: [float]
    raises and nothing catches it here. *)
Lemma handle_line_malformed (q : Queue Sample) (raw_line : string) (now : R)
    (m : list string) :
  search pattern (strip raw_line) = Some m ->
  decimal (group m 1) = None \/ decimal (group m 2) = None \/ decimal (group m 3) = None ->
  handle_line q raw_line now = Raise ValueError.
Proof.
  intros Hs Hd. unfold handle_line.
  destruct raw_line as [| c raw'].
  - cbv in Hs. discriminate Hs.
  - rewrite Hs. unfold float.
    destruct (decimal (group m 1)) as [[m1 k1] |]; [| reflexivity].
    destruct (decimal (group m 2)) as [[m2 k2] |]; [| reflexivity].
    destruct (decimal (group m 3)) as [[m3 k3] |]; [| reflexivity].
    destruct Hd as [Hd | [Hd | Hd]]; discriminate.
Qed.

Lemma noise_line_sample (now : R) :
  handle_line (PyQueue.new 10) noise_line now
  = Ok (mkQueue 10 [mkSample (-12.5) 3 0 now]).
Proof.
  assert (Hs : search pattern (strip noise_line) = Some ["-12.50"; "3.0"; "0.00"])
    by (vm_compute; reflexivity).
  rewrite (@handle_line_numbers _ _ now _ (-12.5)%R 3%R 0%R Hs).
  - reflexivity.
  - unfold float.
    replace (decimal (group ["-12.50"; "3.0"; "0.00"] 1)) with (Some ((-1250)%Z, 2%nat))
      by (vm_compute; reflexivity).
    f_equal. simpl. lra.
  - unfold float.
    replace (decimal (group ["-12.50"; "3.0"; "0.00"] 2)) with (Some (30%Z, 1%nat))
      by (vm_compute; reflexivity).
    f_equal. simpl. lra.
  - unfold float.
    replace (decimal (group ["-12.50"; "3.0"; "0.00"] 3)) with (Some (0%Z, 2%nat))
      by (vm_compute; reflexivity).
    f_equal. simpl. lra.
Qed.

Lemma garbage_no_sample (q : Queue Sample) (now : R) :
  handle_line q "garbage" now = Ok q.
Proof. apply handle_line_no_match. vm_compute. reflexivity. Qed.

Lemma malformed_line_match :
  search pattern (strip malformed_line) = Some ["-."; "1.0"; "1.0"].
Proof. vm_compute. reflexivity. Qed.

Lemma malformed_line_raises (q : Queue Sample) (now : R) :
  handle_line q malformed_line now = Raise ValueError.
Proof.
  apply (@handle_line_malformed q malformed_line now _ malformed_line_match).
  left. vm_compute. reflexivity.
Qed.
End ReaderFacts.

(** ** The remap maps *)

Section DistortionFacts.
Import MathUtils SpecRotation VRDistortion Projection.
Local Open Scope R_scope.

(** *** Arrays *)

Lemma item_map_seq (F : nat -> R) (n i : nat) :
  (i < n)%nat -> item (map F (seq 0 n)) i = F i.
Proof.
  intros Hi. unfold item.
  rewrite (nth_indep _ 0 (F 0%nat)) by (now rewrite length_map, length_seq).
  rewrite map_nth, seq_nth by exact Hi. reflexivity.
Qed.

Lemma item_map (g : R -> R) (a : array) (i : nat) :
  (i < length a)%nat -> item (map g a) i = g (item a i).
Proof.
  intros Hi. unfold item.
  rewrite (nth_indep _ 0 (g 0)) by (now rewrite length_map).
  apply map_nth.
Qed.

(** The projection loop reads the arrays that the rotation loop filled. *)
Lemma screen_map (n : nat) (RX RZ : nat -> R) (f c : R) :
  map (fun i =>
         if Rltb 0 (item (map RZ (seq 0 n)) i)
         then item (map RX (seq 0 n)) i / item (map RZ (seq 0 n)) i * f + c
         else -1) (seq 0 n)
  = map (fun i => if Rltb 0 (RZ i) then RX i / RZ i * f + c else -1) (seq 0 n).
Proof.
  apply map_ext_in. intros i Hi. apply in_seq in Hi.
  rewrite !item_map_seq by lia. reflexivity.
Qed.

Lemma entry_rows (h w : nat) : forall (a : array) (r c : nat),
  (r < h)%nat -> (c < w)%nat -> entry (rows h w a) r c = item a (r * w + c).
Proof.
  unfold entry, item.
  induction h as [| h IH]; intros a r c Hr Hc; [lia |].
  destruct r as [| r]; simpl rows; cbn [nth].
  - rewrite nth_firstn.
    replace (c <? w)%nat with true by (symmetry; apply Nat.ltb_lt; exact Hc).
    reflexivity.
  - rewrite IH by lia. rewrite nth_skipn. f_equal. simpl. lia.
Qed.

Lemma columns_seq : forall xs ys zs : array,
  length ys = length xs -> length zs = length xs ->
  columns xs ys zs
  = Ok (map (fun i => (item xs i, item ys i, item zs i)) (seq 0 (length xs))).
Proof.
  induction xs as [| x xs IH]; intros [| y ys] [| z zs] Hy Hz;
    simpl in Hy, Hz; try discriminate; [reflexivity |].
  cbn [columns]. rewrite IH by lia.
  cbn [length seq map]. rewrite <- seq_shift, map_map. reflexivity.
Qed.

Lemma screen_projected (f : R) (tw th : nat) (rot : mat3) (p : vec3) :
  projected f tw th (apply rot p) (screen_x f tw rot p) (screen_y f th rot p).
Proof.
  unfold projected, screen_x, screen_y.
  destruct (apply rot p) as [[rx ry] rz]. unfold Rltb.
  destruct (Rlt_dec 0 rz); split; intros; try lra; auto.
Qed.

Lemma shaped_ext (h w : nat) (lx ly rx ry lx' ly' rx' ry' : array) :
  lx = lx' -> ly = ly' -> rx = rx' -> ry = ry' ->
  shaped h w lx ly rx ry = shaped h w lx' ly' rx' ry'.
Proof. now intros -> -> -> ->. Qed.

Lemma compute_vr_distortion_flat (xs ys zs : array) (half_ipd f : R) (tw th : nat)
    (rot : mat3) (h w : nat) :
  compute_vr_distortion xs ys zs half_ipd f tw th rot h w
  = flat_maps xs ys zs half_ipd f tw th rot h w.
Proof.
  unfold compute_vr_distortion. cbv zeta. rewrite !screen_map. reflexivity.
Qed.

Lemma fallback_flat (self : VRProcessor) (yaw pitch roll : R) :
  length (y_flat self) = length (x_flat self) ->
  length (z_flat self) = length (x_flat self) ->
  compute_vr_distortion_fallback self yaw pitch roll
  = flat_maps (x_flat self) (y_flat self) (z_flat self) (half_ipd self)
      (focal_length self) (target_width self) (target_height self)
      (create_rotation_matrix yaw pitch roll)
      (target_height self) (target_width self).
Proof.
  intros Hy Hz. unfold compute_vr_distortion_fallback, flat_maps.
  rewrite !columns_seq by (rewrite length_map; assumption).
  cbn [bind]. unfold project_valid, matmul_rows.
  rewrite !length_map, !map_map.
  set (n := length (x_flat self)).
  assert (E : forall (F G : nat -> R),
             (forall i, (i < n)%nat -> F i = G i) ->
             map F (seq 0 n) = map G (seq 0 n)).
  { intros F G H. apply map_ext_in. intros i Hi. apply in_seq in Hi. apply H. lia. }
  apply shaped_ext; apply E; intros i Hi;
    rewrite item_map by exact Hi; reflexivity.
Qed.

Lemma flat_maps_shaped (self : VRProcessor) (rot : mat3) :
  grid_shaped self ->
  flat_maps (x_flat self) (y_flat self) (z_flat self) (half_ipd self)
    (focal_length self) (target_width self) (target_height self) rot
    (target_height self) (target_width self)
  = Ok (maps_of self rot).
Proof.
  intros [Hx _]. unfold flat_maps, shaped, reshape.
  rewrite !length_map, !length_seq, <- Hx, Nat.eqb_refl.
  reflexivity.
Qed.

Lemma jit_shaped (self : VRProcessor) (rot : mat3) :
  grid_shaped self ->
  compute_vr_distortion (x_flat self) (y_flat self) (z_flat self) (half_ipd self)
    (focal_length self) (target_width self) (target_height self) rot
    (target_height self) (target_width self)
  = Ok (maps_of self rot).
Proof.
  intros H. rewrite compute_vr_distortion_flat. now apply flat_maps_shaped.
Qed.

Lemma fallback_shaped (self : VRProcessor) (yaw pitch roll : R) :
  grid_shaped self ->
  compute_vr_distortion_fallback self yaw pitch roll
  = Ok (maps_of self (create_rotation_matrix yaw pitch roll)).
Proof.
  intros H. rewrite fallback_flat by apply H. now apply flat_maps_shaped.
Qed.

(** Whichever backend runs, the recomputation gives the same maps. *)
Lemma recompute_shaped (jit_works : bool) (self : VRProcessor) (yaw pitch roll : R) :
  grid_shaped self ->
  recompute jit_works self yaw pitch roll
  = Ok (maps_of self (create_rotation_matrix yaw pitch roll)).
Proof.
  intros H. unfold recompute. destruct jit_works.
  - now rewrite jit_shaped.
  - simpl. now apply fallback_shaped.
Qed.

Lemma maps_of_projected (self : VRProcessor) (rot : mat3) :
  grid_shaped self -> pixels_projected self rot (maps_of self rot).
Proof.
  intros [Hx _]. unfold pixels_projected, maps_of. cbv zeta.
  intros r c Hr Hc.
  assert (Hi : (r * target_width self + c < length (x_flat self))%nat) by nia.
  rewrite !entry_rows by assumption.
  rewrite !item_map_seq by exact Hi.
  split; apply screen_projected.
Qed.

(** C3.  On every destination pixel grid (three arrays of one length) and
    for all angles, the compiled function, called as the program calls
    it, and the fallback give the same result: the same four maps when the
    arrays have the size of the target, the same exception otherwise; so
    the recomputation does not depend on the backend. *)
Theorem fallback_equals_jit (self : VRProcessor) (yaw pitch roll : R) :
  length (y_flat self) = length (x_flat self) ->
  length (z_flat self) = length (x_flat self) ->
  compute_vr_distortion (x_flat self) (y_flat self) (z_flat self) (half_ipd self)
    (focal_length self) (target_width self) (target_height self)
    (create_rotation_matrix yaw pitch roll)
    (target_height self) (target_width self)
  = compute_vr_distortion_fallback self yaw pitch roll
  /\ recompute true self yaw pitch roll = recompute false self yaw pitch roll
  /\ (length (x_flat self) = (target_height self * target_width self)%nat ->
      exists maps, compute_vr_distortion_fallback self yaw pitch roll = Ok maps).
Proof.
  intros Hy Hz.
  assert (E : compute_vr_distortion (x_flat self) (y_flat self) (z_flat self)
                (half_ipd self) (focal_length self) (target_width self)
                (target_height self) (create_rotation_matrix yaw pitch roll)
                (target_height self) (target_width self)
              = compute_vr_distortion_fallback self yaw pitch roll)
    by (now rewrite compute_vr_distortion_flat, fallback_flat).
  split; [exact E | split].
  - unfold recompute. rewrite E. simpl.
    now destruct (compute_vr_distortion_fallback self yaw pitch roll).
  - intros Hx. eexists. apply fallback_shaped. repeat split; assumption.
Qed.

(** C4.  For a processor whose arrays have the shape of its grid: the
    compiled function (for any rotation matrix) and the fallback (for the
    matrix of the angles) return four maps in which, for each eye and each
    destination pixel, the entries are
    [rotated_x / rotated_z * focal_length + target_width / 2] and
    [rotated_y / rotated_z * focal_length + target_height / 2] when the
    rotated z of the pixel's point is positive, and both [-1] when it is
    zero or negative. *)
Theorem projection_or_sentinel (self : VRProcessor) (rot : mat3) (yaw pitch roll : R) :
  grid_shaped self ->
  (exists maps,
     compute_vr_distortion (x_flat self) (y_flat self) (z_flat self) (half_ipd self)
       (focal_length self) (target_width self) (target_height self) rot
       (target_height self) (target_width self) = Ok maps
     /\ pixels_projected self rot maps)
  /\ (exists maps,
        compute_vr_distortion_fallback self yaw pitch roll = Ok maps
        /\ pixels_projected self (create_rotation_matrix yaw pitch roll) maps).
Proof.
  intros H. split; eexists; split.
  - now apply jit_shaped.
  - now apply maps_of_projected.
  - now apply fallback_shaped.
  - now apply maps_of_projected.
Qed.

(** *** The grid of [precompute_vr_parameters] *)

Lemma concat_length (F : nat -> array) (w : nat) :
  (forall r, length (F r) = w) ->
  forall h s, length (concat (map F (seq s h))) = (h * w)%nat.
Proof.
  intros HF. induction h as [| h IH]; intros s; [reflexivity |].
  cbn [seq map concat]. rewrite length_app, HF, IH. reflexivity.
Qed.

Lemma concat_item (F : nat -> array) (G : nat -> nat -> R) (w : nat) :
  (forall r, length (F r) = w) ->
  (forall r c, (c < w)%nat -> item (F r) c = G r c) ->
  forall h s r c, (r < h)%nat -> (c < w)%nat ->
    item (concat (map F (seq s h))) (r * w + c) = G (s + r)%nat c.
Proof.
  intros HF HG. unfold item in *.
  induction h as [| h IH]; intros s r c Hr Hc; [lia |].
  cbn [seq map concat]. destruct r as [| r].
  - rewrite app_nth1 by (rewrite HF; simpl; lia).
    rewrite Nat.add_0_r. simpl. now apply HG.
  - rewrite app_nth2 by (rewrite HF; simpl; lia).
    rewrite HF. replace (S r * w + c - w)%nat with (r * w + c)%nat by (simpl; lia).
    rewrite IH by lia. f_equal. lia.
Qed.

(** What [__init__] leaves in [self]: the parameters, an empty cache, and
    the centred coordinates of the pixel in row [r] and column [c] at the
    flat index [r * target_width + c]. *)
Lemma precompute_fields (cfg : Config.Config) (self : VRProcessor) :
  precompute_vr_parameters cfg = Ok self ->
  config self = cfg
  /\ target_width self = (Config.CAPTURE_WIDTH cfg / 2)%nat
  /\ target_height self = Config.CAPTURE_HEIGHT cfg
  /\ focal_length self
     = Config.num (target_width self) / 2 / tan (radians (Config.FOV_DEGREES cfg) / 2)
  /\ half_ipd self
     = Config.IPD cfg * focal_length self / (Config.SCREEN_DISTANCE cfg * 1000) / 2
  /\ map_cache self = None
  /\ last_orientation self = None
  /\ grid_shaped self
  /\ forall r c, (r < target_height self)%nat -> (c < target_width self)%nat ->
       let i := (r * target_width self + c)%nat in
       item (x_flat self) i = Config.num c - Config.num (target_width self) / 2
       /\ item (y_flat self) i = Config.num r - Config.num (target_height self) / 2
       /\ item (z_flat self) i = 1 * focal_length self.
Proof.
  unfold precompute_vr_parameters. cbv zeta.
  set (w := (Config.CAPTURE_WIDTH cfg / 2)%nat).
  set (h := Config.CAPTURE_HEIGHT cfg).
  destruct (Req_dec_T _ 0) as [| Htan]; [discriminate |].
  destruct (Req_dec_T _ 0) as [| Hsd]; [discriminate |].
  unfold mgrid, arange, flatten. intros H. injection H as <-.
  cbn [config target_width target_height focal_length half_ipd
       map_cache last_orientation].
  repeat (split; [reflexivity |]).
  unfold grid_shaped.
  cbn [x_flat y_flat z_flat target_width target_height focal_length].
  rewrite !map_map.
  split; [| intros r c Hr Hc; cbv zeta; split; [| split]].
  - rewrite !(@concat_length _ w)
      by (intros; now rewrite ?length_map, length_seq).
    auto.
  - rewrite (@concat_item _ (fun _ c => Config.num c - Config.num w / 2) w);
      try assumption; try reflexivity.
    + intros. now rewrite ?length_map, length_seq.
    + intros r' c' Hc'. rewrite ?map_map. now rewrite item_map_seq.
  - rewrite (@concat_item _ (fun r _ => Config.num r - Config.num h / 2) w);
      try assumption; try reflexivity.
    + intros. now rewrite ?length_map, length_seq.
    + intros r' c' Hc'. rewrite ?map_map. now rewrite item_map_seq.
  - rewrite (@concat_item _ (fun _ _ => 1 * (Config.num w / 2
               / tan (radians (Config.FOV_DEGREES cfg) / 2))) w);
      try assumption; try reflexivity.
    + intros. now rewrite ?length_map, length_seq.
    + intros r' c' Hc'. rewrite ?map_map. now rewrite item_map_seq.
Qed.

Lemma precompute_succeeds (cfg : Config.Config) :
  0 < Config.FOV_DEGREES cfg < 180 -> Config.SCREEN_DISTANCE cfg <> 0 ->
  exists self, precompute_vr_parameters cfg = Ok self
               /\ 0 < tan (radians (Config.FOV_DEGREES cfg) / 2).
Proof.
  intros [Hf0 Hf1] Hsd.
  assert (Htan : 0 < tan (radians (Config.FOV_DEGREES cfg) / 2)).
  { pose proof PI_RGT_0. unfold radians. apply tan_gt_0; nra. }
  unfold precompute_vr_parameters.
  destruct (Req_dec_T _ 0) as [E |]; [lra |].
  destruct (Req_dec_T _ 0) as [E |]; [lra |].
  unfold mgrid. eexists. split; [reflexivity | exact Htan].
Qed.

(** *** The cache *)

Lemma Rltb_true (x y : R) : x < y -> Rltb x y = true.
Proof. intros H. unfold Rltb. now destruct (Rlt_dec x y). Qed.

Lemma Rltb_false (x y : R) : y <= x -> Rltb x y = false.
Proof. intros H. unfold Rltb. destruct (Rlt_dec x y); [lra | reflexivity]. Qed.

(** The orientation is within the threshold of the recorded one on every
    axis, or reaches it on some axis. *)
Lemma cache_hit (jit_works : bool) (self : VRProcessor) (yaw pitch roll : R)
    (last_yaw last_pitch last_roll : R) (cached : RemapMap) :
  let threshold := Config.ORIENTATION_THRESHOLD (config self) in
  last_orientation self = Some (last_yaw, last_pitch, last_roll) ->
  map_cache self = Some cached ->
  Rabs (yaw - last_yaw) < threshold ->
  Rabs (pitch - last_pitch) < threshold ->
  Rabs (roll - last_roll) < threshold ->
  compute_distortion_maps jit_works self yaw pitch roll = Ok (cached, self).
Proof.
  intros threshold Hlast Hcache Hy Hp Hr.
  unfold compute_distortion_maps, should_use_cache.
  rewrite Hlast, Hcache.
  fold threshold. now rewrite !Rltb_true by assumption.
Qed.

Lemma cache_miss (jit_works : bool) (self : VRProcessor) (yaw pitch roll : R) :
  let threshold := Config.ORIENTATION_THRESHOLD (config self) in
  grid_shaped self ->
  last_orientation self = None
  \/ map_cache self = None
  \/ (exists last_yaw last_pitch last_roll,
        last_orientation self = Some (last_yaw, last_pitch, last_roll)
        /\ (threshold <= Rabs (yaw - last_yaw)
            \/ threshold <= Rabs (pitch - last_pitch)
            \/ threshold <= Rabs (roll - last_roll))) ->
  let maps := maps_of self (create_rotation_matrix yaw pitch roll) in
  recompute jit_works self yaw pitch roll = Ok maps
  /\ compute_distortion_maps jit_works self yaw pitch roll
     = Ok (maps, store self maps (yaw, pitch, roll)).
Proof.
  intros threshold Hshape Hmiss maps.
  pose proof (recompute_shaped jit_works yaw pitch roll Hshape) as Hre.
  split; [exact Hre |].
  unfold compute_distortion_maps. rewrite Hre. cbn [bind].
  destruct Hmiss as [Hnone | [Hnone | (ly & lp & lr & Hlast & Hfar)]].
  - unfold should_use_cache. now rewrite Hnone.
  - rewrite Hnone. now destruct (should_use_cache self (yaw, pitch, roll)).
  - unfold should_use_cache. rewrite Hlast. fold threshold.
    destruct Hfar as [H | [H | H]]; rewrite (Rltb_false H);
      rewrite ?andb_false_r; reflexivity.
Qed.

(** After a call the processor has the shape of its grid, the
    configuration it had, the returned maps in its cache and an orientation
    on record. *)
Lemma call_state (jit_works : bool) (self self' : VRProcessor) (yaw pitch roll : R)
    (maps : RemapMap) :
  grid_shaped self ->
  compute_distortion_maps jit_works self yaw pitch roll = Ok (maps, self') ->
  grid_shaped self'
  /\ config self' = config self
  /\ map_cache self' = Some maps
  /\ exists last, last_orientation self' = Some last.
Proof.
  intros Hshape. unfold compute_distortion_maps.
  rewrite (recompute_shaped jit_works yaw pitch roll Hshape). cbn [bind].
  destruct (should_use_cache self (yaw, pitch, roll)) eqn:Huse;
    [destruct (map_cache self) as [cached |] eqn:Hcache |];
    intros H; injection H as <- <-;
    (split; [exact Hshape | split; [reflexivity | split; [auto |]]]);
    try (eexists; reflexivity).
  unfold should_use_cache in Huse.
  destruct (last_orientation self) as [last |]; [eauto | discriminate].
Qed.

(** C2.  A call of [compute_distortion_maps] on a processor whose arrays
    have the shape of its grid.  When there is a cached map and the new
    orientation differs from the recorded one by less than
    [ORIENTATION_THRESHOLD] on every axis, the cached maps are returned and
    the processor is unchanged: nothing is recomputed.  When no orientation
    is recorded, or no map is cached, or the difference reaches the
    threshold on some axis, the maps are recomputed (with either backend)
    and the one cache entry and the recorded orientation are replaced by
    the new maps and the new orientation.  So for two consecutive calls:
    after the first, the second returns the maps of the first and leaves
    the processor as it is when its orientation is within the threshold of
    the recorded one on all three axes, and recomputes and replaces cache
    and record when it reaches the threshold on some axis. *)
Theorem cache_reuse_or_recompute (jit_works : bool) (self : VRProcessor)
    (yaw pitch roll yaw2 pitch2 roll2 : R) :
  grid_shaped self ->
  let threshold := Config.ORIENTATION_THRESHOLD (config self) in
  (forall last_yaw last_pitch last_roll cached,
      last_orientation self = Some (last_yaw, last_pitch, last_roll) ->
      map_cache self = Some cached ->
      Rabs (yaw - last_yaw) < threshold ->
      Rabs (pitch - last_pitch) < threshold ->
      Rabs (roll - last_roll) < threshold ->
      compute_distortion_maps jit_works self yaw pitch roll = Ok (cached, self))
  /\ (last_orientation self = None
      \/ map_cache self = None
      \/ (exists last_yaw last_pitch last_roll,
            last_orientation self = Some (last_yaw, last_pitch, last_roll)
            /\ (threshold <= Rabs (yaw - last_yaw)
                \/ threshold <= Rabs (pitch - last_pitch)
                \/ threshold <= Rabs (roll - last_roll))) ->
      exists maps self',
        recompute jit_works self yaw pitch roll = Ok maps
        /\ compute_distortion_maps jit_works self yaw pitch roll = Ok (maps, self')
        /\ self' = store self maps (yaw, pitch, roll)
        /\ map_cache self' = Some maps
        /\ last_orientation self' = Some (yaw, pitch, roll))
  /\ (forall maps1 self1,
        compute_distortion_maps jit_works self yaw pitch roll = Ok (maps1, self1) ->
        exists last_yaw last_pitch last_roll,
          last_orientation self1 = Some (last_yaw, last_pitch, last_roll)
          /\ (Rabs (yaw2 - last_yaw) < threshold ->
              Rabs (pitch2 - last_pitch) < threshold ->
              Rabs (roll2 - last_roll) < threshold ->
              compute_distortion_maps jit_works self1 yaw2 pitch2 roll2
              = Ok (maps1, self1))
          /\ (threshold <= Rabs (yaw2 - last_yaw)
              \/ threshold <= Rabs (pitch2 - last_pitch)
              \/ threshold <= Rabs (roll2 - last_roll) ->
              exists maps2,
                recompute jit_works self1 yaw2 pitch2 roll2 = Ok maps2
                /\ compute_distortion_maps jit_works self1 yaw2 pitch2 roll2
                   = Ok (maps2, store self1 maps2 (yaw2, pitch2, roll2)))).
Proof.
  intros Hshape threshold. split; [| split].
  - intros ly lp lr cached. apply cache_hit.
  - intros Hmiss.
    destruct (@cache_miss jit_works self yaw pitch roll Hshape Hmiss) as [Hre Hcall].
    do 2 eexists. repeat split; [exact Hre | exact Hcall].
  - intros maps1 self1 Hcall1.
    destruct (@call_state jit_works self self1 yaw pitch roll maps1 Hshape Hcall1)
      as (Hshape1 & Hcfg1 & Hcache1 & [[[ly lp] lr] Hlast1]).
    exists ly, lp, lr. split; [exact Hlast1 | split].
    + intros Hy Hp Hr.
      apply (@cache_hit jit_works self1 yaw2 pitch2 roll2 ly lp lr maps1);
        try assumption; rewrite Hcfg1; assumption.
    + intros Hfar.
      destruct (@cache_miss jit_works self1 yaw2 pitch2 roll2 Hshape1) as [Hre Hcall].
      * right. right. exists ly, lp, lr. rewrite Hcfg1. auto.
      * eexists. split; [exact Hre | exact Hcall].
Qed.

(** *** The orientation (0, 0, 0) without eye distance *)

(** C8.  With [IPD = 0], a field of view between 0 and 180 degrees and a
    screen distance other than 0, the processor is built, its half eye
    distance is 0, and the maps computed for yaw = pitch = roll = 0 (with
    either backend) are the same for the two eyes and send every
    destination pixel, column [c] of row [r], to the source coordinates
    [(c, r)]. *)
Theorem identity_maps_at_rest (jit_works : bool) (cfg : Config.Config) :
  Config.IPD cfg = 0 ->
  0 < Config.FOV_DEGREES cfg < 180 ->
  Config.SCREEN_DISTANCE cfg <> 0 ->
  exists self left_map_x left_map_y right_map_x right_map_y self',
    precompute_vr_parameters cfg = Ok self
    /\ half_ipd self = 0
    /\ compute_distortion_maps jit_works self 0 0 0
       = Ok ((left_map_x, left_map_y, right_map_x, right_map_y), self')
    /\ left_map_x = right_map_x
    /\ left_map_y = right_map_y
    /\ forall r c, (r < target_height self)%nat -> (c < target_width self)%nat ->
         entry left_map_x r c = Config.num c /\ entry left_map_y r c = Config.num r.
Proof.
  intros Hipd Hfov Hsd.
  destruct (precompute_succeeds cfg Hfov Hsd) as (self & Hself & Htan).
  destruct (@precompute_fields cfg self Hself)
    as (Hcfg & Hw & Hh & Hf & Hhalf & Hcache & Hlast & Hshape & Hgrid).
  assert (Hzero : half_ipd self = 0)
    by (rewrite Hhalf, Hipd; unfold Rdiv; ring).
  pose proof (recompute_shaped jit_works 0 0 0 Hshape) as Hre.
  unfold maps_of in Hre. cbv zeta in Hre. rewrite Hzero in Hre.
  do 5 eexists. exists (store self (maps_of self (create_rotation_matrix 0 0 0)) (0, 0, 0)).
  split; [exact Hself | split; [exact Hzero | split; [| split; [| split]]]].
  - unfold compute_distortion_maps, should_use_cache. rewrite Hlast, Hre.
    cbn [bind]. unfold maps_of. cbv zeta. rewrite Hzero. reflexivity.
  - f_equal. apply map_ext. intros i. unfold left_point, right_point.
    now replace (item (x_flat self) i - 0) with (item (x_flat self) i + 0) by ring.
  - f_equal. apply map_ext. intros i. unfold left_point, right_point.
    now replace (item (x_flat self) i - 0) with (item (x_flat self) i + 0) by ring.
  - intros r c Hr Hc.
    assert (Hi : (r * target_width self + c < length (x_flat self))%nat)
      by (destruct Hshape as [Hx _]; rewrite Hx; nia).
    destruct (Hgrid r c Hr Hc) as (Hx & Hy & Hz). cbv zeta in Hx, Hy, Hz.
    assert (Hpos : 0 < focal_length self).
    { rewrite Hf. apply Rdiv_lt_0_compat; [| exact Htan].
      assert (0 < Config.num (target_width self))
        by (unfold Config.num; apply IZR_lt; lia).
      lra. }
    rewrite !entry_rows by assumption.
    rewrite !item_map_seq by exact Hi.
    unfold screen_x, screen_y, left_point, apply.
    rewrite create_rotation_matrix_0. cbn [m00 m01 m02 m10 m11 m12 m20 m21 m22].
    rewrite Hx, Hy, Hz.
    set (f := focal_length self) in *.
    rewrite Rltb_true by lra.
    split; field; lra.
Qed.
End DistortionFacts.

(** ** Sensor ingest: the loop *)

Section IngestFacts.
Import Re Reader PyQueue.
Local Open Scope string_scope.

(** C5 (the line on which the program departs from it).  The text after
    [Yaw:] in [malformed_line] is not a number, so the line does not carry
    three numbers; yet the pattern matches it, and handling the line
    raises [ValueError] where the line should have been dropped with the
    queue unchanged. *)
Theorem handle_line_raises_on_malformed_number (q : Queue Sample) (now : R) :
  decimal "-." = None
  /\ search pattern (strip malformed_line) = Some ["-."; "1.0"; "1.0"]
  /\ handle_line q malformed_line now = Raise ValueError
  /\ handle_line q malformed_line now <> Ok q.
Proof.
  split; [vm_compute; reflexivity | split; [exact malformed_line_match | split]].
  - apply malformed_line_raises.
  - rewrite malformed_line_raises. discriminate.
Qed.

(** C10.  There is a line that the pattern matches although a captured
    text is not a number: on ['Yaw: -., Pitch: 1.0, Roll: 1.0'] group 1 is
    ['-.'], on which [float] raises [ValueError].  Whatever the queue and
    whatever follows on the transport, the exception leaves the handling
    of the line, reaches the handler of the loop, and [sensor_reader] ends
    there: the queue is as it was, the connection is closed, and the
    readings after the line are never looked at. *)
Theorem sensor_reader_ends_on_malformed_number :
  exists line : string,
    line = "Yaw: -., Pitch: 1.0, Roll: 1.0"
    /\ (exists m, search pattern (strip line) = Some m
                  /\ group m 1 = "-."
                  /\ float (group m 1) = Raise ValueError)
    /\ forall (q : Queue Sample) (now : R) (rest : list reading),
         step q (Line line now) = Raise ValueError
         /\ sensor_reader q (Line line now :: rest)
            = mkOutcome q false rest (Some ValueError).
Proof.
  exists malformed_line. split; [reflexivity | split].
  - exists ["-."; "1.0"; "1.0"].
    split; [exact malformed_line_match | split; [reflexivity |]].
    unfold float, group. cbn [nth pred].
    replace (decimal "-.") with (@None (Z * nat)) by (vm_compute; reflexivity).
    reflexivity.
  - intros q now rest.
    assert (H : step q (Line malformed_line now) = Raise ValueError)
      by (cbn [step]; apply malformed_line_raises).
    split; [exact H |]. cbn [sensor_reader]. now rewrite H.
Qed.
End IngestFacts.

(** ** The render loop *)

Section RenderFacts.
Import PyQueue VRDistortion Display.
Local Open Scope R_scope.

Variable Frame : Type.
Variable remap : Frame -> grid -> grid -> Frame.
Variable hstack : Frame -> Frame -> Frame.
Variable shape : Frame -> nat * nat.
Variable resize : Frame -> nat * nat -> Frame.
Variable jit_works : bool.

(** C1, as the program has it.  Whatever the configuration: the
    orientation handed to the renderer is the snapshot with 100 added to
    yaw and 12 added to pitch, the two numbers being literals of the loop;
    and when the loop processes a frame (the output channel is not full
    and a frame is waiting), the frame it publishes is the one rendered
    from the waiting frame at that orientation. *)
Theorem render_adds_fixed_offsets (self : VRDisplayApp Frame)
    (frame : Frame) (waiting : list Frame)
    (combined_frame : Frame) (vr_processor' : VRProcessor) :
  let sensor_data := Fusion.get_sensor_data (sensor_fusion self) in
  let yaw := Fusion.yaw sensor_data + 100 in
  let pitch := Fusion.pitch sensor_data + 12 in
  let roll := Fusion.roll sensor_data in
  full (render_buffer self) = false ->
  items (frame_buffer self) = frame :: waiting ->
  render_frame remap hstack shape resize jit_works (vr_processor self)
    frame yaw pitch roll = Ok (combined_frame, vr_processor') ->
  current_orientation self = (yaw, pitch, roll)
  /\ (forall other : VRDisplayApp Frame,
        sensor_fusion other = sensor_fusion self ->
        current_orientation other = current_orientation self)
  /\ render_frame_thread_step remap hstack shape resize jit_works self
     = Ok (mkApp (config self)
             (mkQueue (maxsize (frame_buffer self)) waiting)
             (mkQueue (maxsize (render_buffer self))
                (items (render_buffer self) ++ [combined_frame]))
             vr_processor' (sensor_fusion self)).
Proof.
  intros sensor_data yaw pitch roll Hfull Hwaiting Hrender.
  split; [reflexivity | split].
  - intros other Hsame. unfold current_orientation. now rewrite Hsame.
  - unfold render_frame_thread_step. rewrite Hfull.
    unfold empty, get_nowait. rewrite Hwaiting.
    unfold current_orientation. fold sensor_data. fold yaw pitch roll.
    rewrite Hrender.
    unfold put_drop_oldest, put_nowait. rewrite Hfull. reflexivity.
Qed.
End RenderFacts.

(** ** The properties at concrete inputs *)

Section Instances.
Import PyQueue MathUtils VRDistortion Projection Display Examples.
Local Open Scope R_scope.

Lemma Rabs_small (x bound : R) : - bound < x < bound -> Rabs x < bound.
Proof. intros [H1 H2]. now apply Rabs_def1. Qed.

Lemma Rabs_large (x bound : R) : bound <= x -> bound <= Rabs x.
Proof. intros H. pose proof (Rle_abs x). lra. Qed.

(** [pixel_processor] is what [__init__] builds. *)
Lemma pixel_processor_init :
  precompute_vr_parameters small_config = Ok (pixel_processor None None).
Proof.
  destruct (@precompute_succeeds small_config) as (self & Hself & Htan);
    [simpl; lra | simpl; lra |].
  rewrite Hself. f_equal. revert Hself.
  unfold precompute_vr_parameters.
  destruct (Req_dec_T _ 0) as [| _]; [discriminate |].
  destruct (Req_dec_T _ 0) as [| _]; [discriminate |].
  intros H. injection H as <-. reflexivity.
Qed.

Lemma pixel_processor_shaped (cache : option RemapMap) (last : option (R * R * R)) :
  grid_shaped (pixel_processor cache last).
Proof. repeat split. Qed.

(** C1, the reading of the specification, fails: no numeric setting of
    config.py has the value 100 that the loop adds to yaw. *)
Lemma offsets_are_not_settings : ~ offsets_are_settings nat Config.config.
Proof.
  intros (yaw_offset & pitch_offset & Hyaw & _ & H).
  specialize (H app eq_refl). cbv zeta in H.
  unfold current_orientation in H.
  injection H as Hy _.
  assert (E : yaw_offset = 100) by lra. subst yaw_offset.
  unfold Config.numeric_settings, Config.num in Hyaw.
  cbn [map snd In Config.config Config.WIDTH Config.HEIGHT Config.CAPTURE_WIDTH
       Config.CAPTURE_HEIGHT Config.IPD Config.FOV_DEGREES Config.SCREEN_DISTANCE
       Config.SERIAL_BAUDRATE Config.SENSOR_FILTER_ALPHA Config.TARGET_FPS
       Config.CAPTURE_FPS Config.RENDER_FPS Config.FRAME_BUFFER_SIZE
       Config.ORIENTATION_THRESHOLD Config.CURSOR_SIZE] in Hyaw.
  repeat (destruct Hyaw as [Hyaw | Hyaw];
          [try (apply eq_IZR in Hyaw; vm_compute in Hyaw; discriminate); lra |]).
  contradiction.
Qed.

Lemma app_render :
  render_frame remap hstack shape resize true
    (vr_processor app) 7%nat (0 + 100) (0 + 12) 0
  = Ok (7%nat, vr_processor app).
Proof.
  unfold render_frame, compute_distortion_maps, should_use_cache.
  cbn [app vr_processor last_orientation map_cache pixel_processor
       VRDistortion.config small_config Config.ORIENTATION_THRESHOLD].
  rewrite !Rltb_true by (apply Rabs_small; lra).
  reflexivity.
Qed.

(** C1 at [app]: frame 7 is rendered at (100, 12, 0) and published. *)
Lemma render_adds_fixed_offsets_witness :
  current_orientation app = (0 + 100, 0 + 12, 0)
  /\ render_frame_thread_step remap hstack shape resize true app
     = Ok (mkApp Config.config (mkQueue 2 []) (mkQueue 2 [7%nat])
             (vr_processor app) Fusion.new).
Proof.
  destruct (@render_adds_fixed_offsets nat remap hstack shape resize true
              app 7%nat [] 7%nat (vr_processor app)) as [H1 [_ H2]].
  - reflexivity.
  - reflexivity.
  - exact app_render.
  - split; [exact H1 | exact H2].
Defined.

(** C2 at the one-pixel processor with [marked_maps] cached for the
    orientation (0, 0, 0) and the threshold 0.5: the orientation
    (0.2, 0, 0) is served from the cache, and so is (0.4, 0, 0) in the call
    after it; (0.7, 0, 0) is recomputed. *)
Lemma cache_reuse_or_recompute_witness :
  let self := pixel_processor (Some marked_maps) (Some (0, 0, 0)) in
  compute_distortion_maps true self 0.2 0 0 = Ok (marked_maps, self)
  /\ compute_distortion_maps true self 0.4 0 0 = Ok (marked_maps, self)
  /\ exists maps,
       compute_distortion_maps true self 0.7 0 0
       = Ok (maps, pixel_processor (Some maps) (Some (0.7, 0, 0))).
Proof.
  intros self.
  destruct (@cache_reuse_or_recompute true self 0.2 0 0 0.4 0 0
              (pixel_processor_shaped _ _)) as [Hhit [_ Hnext]].
  destruct (@cache_reuse_or_recompute true self 0.7 0 0 0 0 0
              (pixel_processor_shaped _ _)) as [_ [Hmiss _]].
  assert (Hfirst : compute_distortion_maps true self 0.2 0 0 = Ok (marked_maps, self)).
  { apply (Hhit 0 0 0 marked_maps); try reflexivity;
      cbn [self VRDistortion.config pixel_processor small_config
           Config.ORIENTATION_THRESHOLD];
      apply Rabs_small; lra. }
  split; [exact Hfirst | split].
  - destruct (Hnext marked_maps self Hfirst) as (ly & lp & lr & Hlast & Hsame & _).
    injection Hlast as <- <- <-.
    apply Hsame;
      cbn [self VRDistortion.config pixel_processor small_config
           Config.ORIENTATION_THRESHOLD];
      apply Rabs_small; lra.
  - destruct Hmiss as (maps & self' & _ & Hcall & Hself' & _).
    + right. right. exists 0, 0, 0. split; [reflexivity |]. left.
      cbn [self VRDistortion.config pixel_processor small_config
           Config.ORIENTATION_THRESHOLD].
      apply Rabs_large. lra.
    + exists maps. rewrite Hcall, Hself'. reflexivity.
Defined.

(** C3 at the one-pixel processor and the orientation (30, 20, 10). *)
Lemma fallback_equals_jit_witness :
  let self := pixel_processor None None in
  compute_vr_distortion (x_flat self) (y_flat self) (z_flat self) (half_ipd self)
    (focal_length self) 1 1 (create_rotation_matrix 30 20 10) 1 1
  = compute_vr_distortion_fallback self 30 20 10.
Proof.
  intros self.
  destruct (@fallback_equals_jit self 30 20 10) as [H _].
  - reflexivity.
  - reflexivity.
  - exact H.
Defined.

(** C4 at the one-pixel processor, for the matrix of (30, 20, 10). *)
Lemma projection_or_sentinel_witness :
  let self := pixel_processor None None in
  exists maps,
    compute_vr_distortion_fallback self 30 20 10 = Ok maps
    /\ pixels_projected self (create_rotation_matrix 30 20 10) maps.
Proof.
  intros self.
  destruct (@projection_or_sentinel self (create_rotation_matrix 30 20 10) 30 20 10)
    as [_ H].
  - repeat split.
  - exact H.
Defined.

(** C8 at config.py with [IPD = 0]: each eye has 640 x 720 pixels, and the
    pixel in column 320 = 640 / 2 of row 360 = 720 / 2 is sent to
    (320, 360). *)
Lemma identity_maps_at_rest_witness :
  exists self left_map_x left_map_y right_map_x right_map_y self',
    precompute_vr_parameters config_no_ipd = Ok self
    /\ target_width self = 640%nat /\ target_height self = 720%nat
    /\ compute_distortion_maps true self 0 0 0
       = Ok ((left_map_x, left_map_y, right_map_x, right_map_y), self')
    /\ left_map_x = right_map_x /\ left_map_y = right_map_y
    /\ entry left_map_x 360 320 = 320 /\ entry left_map_y 360 320 = 360.
Proof.
  destruct (@identity_maps_at_rest true config_no_ipd)
    as (self & lx & ly & rx & ry & self' & Hself & _ & Hcall & Hx & Hy & Hpixel).
  - reflexivity.
  - simpl. lra.
  - simpl. lra.
  - destruct (@precompute_fields config_no_ipd self Hself) as (_ & Hw & Hh & _).
    change (Config.CAPTURE_WIDTH config_no_ipd / 2)%nat with 640%nat in Hw.
    change (Config.CAPTURE_HEIGHT config_no_ipd) with 720%nat in Hh.
    exists self, lx, ly, rx, ry, self'.
    destruct (Hpixel 360%nat 320%nat) as [Hpx Hpy].
    + rewrite Hh. apply Nat.ltb_lt. reflexivity.
    + rewrite Hw. apply Nat.ltb_lt. reflexivity.
    + repeat split; try assumption.
Defined.
End Instances.

(** * Further properties of the code *)

(** ** The rotation matrix is a rotation *)

Section GeometryFacts.
Import MathUtils SpecRotation Geometry.
Local Open Scope R_scope.

Ltac mat3_entries :=
  apply mat3_eq; cbn [m00 m01 m02 m10 m11 m12 m20 m21 m22].

Lemma create_rotation_matrix_factors (yaw pitch roll : R) :
  create_rotation_matrix yaw pitch roll
  = matmul (matmul (rot_yaw (radians yaw)) (rot_pitch (radians pitch)))
      (rot_roll (radians roll)).
Proof. reflexivity. Qed.

Lemma transpose_matmul (a b : mat3) :
  transpose (matmul a b) = matmul (transpose b) (transpose a).
Proof. unfold transpose, matmul. mat3_entries; ring. Qed.

Lemma matmul_identity_l (a : mat3) : matmul identity a = a.
Proof. unfold matmul, identity. mat3_entries; ring. Qed.

Lemma det_matmul (a b : mat3) : det (matmul a b) = det a * det b.
Proof. unfold det, matmul. cbn [m00 m01 m02 m10 m11 m12 m20 m21 m22]. ring. Qed.

Lemma apply_matmul (a b : mat3) (p : vec3) :
  apply (matmul a b) p = apply a (apply b p).
Proof.
  destruct p as [[x y] z]. unfold apply, matmul.
  cbn [m00 m01 m02 m10 m11 m12 m20 m21 m22].
  f_equal; [f_equal |]; ring.
Qed.

Lemma cos2_sin2 (a : R) : cos a * cos a + sin a * sin a = 1.
Proof. pose proof (sin2_cos2 a) as H. unfold Rsqr in H. lra. Qed.

Lemma proper_rotation_matmul (a b : mat3) :
  proper_rotation a -> proper_rotation b -> proper_rotation (matmul a b).
Proof.
  intros (Ha1 & Ha2 & Ha3 & Ha4) (Hb1 & Hb2 & Hb3 & Hb4).
  repeat split.
  - rewrite transpose_matmul, matmul_assoc, <- (matmul_assoc b), Hb1,
      matmul_identity_l. exact Ha1.
  - rewrite transpose_matmul, matmul_assoc, <- (matmul_assoc (transpose a)), Ha2,
      matmul_identity_l. exact Hb2.
  - rewrite det_matmul, Ha3, Hb3. ring.
  - intros p. now rewrite apply_matmul, Ha4, Hb4.
Qed.

Lemma proper_rotation_yaw (a : R) : proper_rotation (rot_yaw a).
Proof.
  pose proof (cos2_sin2 a) as H.
  repeat split.
  - unfold rot_yaw, matmul, transpose, identity. mat3_entries; nra.
  - unfold rot_yaw, matmul, transpose, identity. mat3_entries; nra.
  - unfold det, rot_yaw. cbn [m00 m01 m02 m10 m11 m12 m20 m21 m22]. nra.
  - intros [[x y] z]. unfold norm2, apply, rot_yaw.
    cbn [m00 m01 m02 m10 m11 m12 m20 m21 m22].
    replace (x * x + y * y + z * z)
      with ((cos a * cos a + sin a * sin a) * (x * x + z * z) + y * y)
      by (rewrite H; ring).
    ring.
Qed.

Lemma proper_rotation_pitch (a : R) : proper_rotation (rot_pitch a).
Proof.
  pose proof (cos2_sin2 a) as H.
  repeat split.
  - unfold rot_pitch, matmul, transpose, identity. mat3_entries; nra.
  - unfold rot_pitch, matmul, transpose, identity. mat3_entries; nra.
  - unfold det, rot_pitch. cbn [m00 m01 m02 m10 m11 m12 m20 m21 m22]. nra.
  - intros [[x y] z]. unfold norm2, apply, rot_pitch.
    cbn [m00 m01 m02 m10 m11 m12 m20 m21 m22].
    replace (x * x + y * y + z * z)
      with ((cos a * cos a + sin a * sin a) * (y * y + z * z) + x * x)
      by (rewrite H; ring).
    ring.
Qed.

Lemma proper_rotation_roll (a : R) : proper_rotation (rot_roll a).
Proof.
  pose proof (cos2_sin2 a) as H.
  repeat split.
  - unfold rot_roll, matmul, transpose, identity. mat3_entries; nra.
  - unfold rot_roll, matmul, transpose, identity. mat3_entries; nra.
  - unfold det, rot_roll. cbn [m00 m01 m02 m10 m11 m12 m20 m21 m22]. nra.
  - intros [[x y] z]. unfold norm2, apply, rot_roll.
    cbn [m00 m01 m02 m10 m11 m12 m20 m21 m22].
    replace (x * x + y * y + z * z)
      with ((cos a * cos a + sin a * sin a) * (x * x + y * y) + z * z)
      by (rewrite H; ring).
    ring.
Qed.

(** X1.  For all angles the matrix of [create_rotation_matrix] is a proper
    rotation: its product with its transpose is the identity on either
    side, its determinant is 1, and a rotated point is as far from the
    origin as the point. *)
Theorem create_rotation_matrix_is_rotation (yaw pitch roll : R) :
  let m := create_rotation_matrix yaw pitch roll in
  matmul m (transpose m) = identity
  /\ matmul (transpose m) m = identity
  /\ det m = 1
  /\ forall p, norm2 (apply m p) = norm2 p.
Proof.
  cbv zeta. rewrite create_rotation_matrix_factors.
  apply proper_rotation_matmul; [apply proper_rotation_matmul |].
  - apply proper_rotation_yaw.
  - apply proper_rotation_pitch.
  - apply proper_rotation_roll.
Qed.

Lemma radians_turns (deg : R) (k : nat) :
  radians (deg + 360 * INR k) = radians deg + 2 * INR k * PI.
Proof. unfold radians. field. Qed.

(** X2.  Whole turns do not matter: adding any number of times 360 degrees
    to yaw, to pitch and to roll gives the same matrix. *)
Theorem create_rotation_matrix_periodic (yaw pitch roll : R) (i j k : nat) :
  create_rotation_matrix (yaw + 360 * INR i) (pitch + 360 * INR j) (roll + 360 * INR k)
  = create_rotation_matrix yaw pitch roll.
Proof.
  rewrite !create_rotation_matrix_factors, !radians_turns.
  unfold rot_yaw, rot_pitch, rot_roll.
  now rewrite !cos_period, !sin_period.
Qed.
End GeometryFacts.

(** ** The processor: construction, maps and cache *)

Section ProcessorFacts.
Import MathUtils SpecRotation VRDistortion Projection Coherence.
Local Open Scope R_scope.

Lemma rows_shape (w : nat) : forall (h : nat) (a : array),
  length a = (h * w)%nat -> has_shape h w (rows h w a).
Proof.
  unfold has_shape.
  induction h as [| h IH]; intros a Ha; simpl; [split; [reflexivity | constructor] |].
  destruct (IH (skipn w a)) as [IH1 IH2].
  { rewrite length_skipn, Ha. simpl. lia. }
  split; [now rewrite IH1 |].
  constructor; [| exact IH2].
  rewrite length_firstn, Ha. simpl. lia.
Qed.

Lemma Rltb_true_inv (x y : R) : Rltb x y = true -> x < y.
Proof. unfold Rltb. destruct (Rlt_dec x y); [auto | discriminate]. Qed.

Lemma should_use_cache_within (self : VRProcessor) (o : R * R * R) :
  should_use_cache self o = true ->
  exists last, last_orientation self = Some last
               /\ within (Config.ORIENTATION_THRESHOLD (config self)) o last.
Proof.
  unfold should_use_cache.
  destruct (last_orientation self) as [[[ly lp] lr] |]; [| discriminate].
  destruct o as [[y p] r]. rewrite !andb_true_iff. intros [[Hy Hp] Hr].
  exists (ly, lp, lr). split; [reflexivity |].
  repeat split; now apply Rltb_true_inv.
Qed.

(** A first call, on a processor without a recorded orientation. *)
Lemma first_call (jit_works : bool) (self : VRProcessor) (yaw pitch roll : R) :
  grid_shaped self -> last_orientation self = None ->
  compute_distortion_maps jit_works self yaw pitch roll
  = Ok (maps_of self (create_rotation_matrix yaw pitch roll),
        store self (maps_of self (create_rotation_matrix yaw pitch roll))
          (yaw, pitch, roll)).
Proof.
  intros Hshape Hlast.
  apply (@cache_miss jit_works self yaw pitch roll Hshape). now left.
Qed.

Lemma maps_of_entries (self : VRProcessor) (rot : mat3) (r c : nat) :
  grid_shaped self ->
  (r < target_height self)%nat -> (c < target_width self)%nat ->
  let '(left_map_x, left_map_y, right_map_x, right_map_y) := maps_of self rot in
  let i := (r * target_width self + c)%nat in
  let left := left_point (x_flat self) (y_flat self) (z_flat self) (half_ipd self) i in
  let right := right_point (x_flat self) (y_flat self) (z_flat self) (half_ipd self) i in
  entry left_map_x r c = screen_x (focal_length self) (target_width self) rot left
  /\ entry left_map_y r c = screen_y (focal_length self) (target_height self) rot left
  /\ entry right_map_x r c = screen_x (focal_length self) (target_width self) rot right
  /\ entry right_map_y r c = screen_y (focal_length self) (target_height self) rot right.
Proof.
  intros [Hx _] Hr Hc. unfold maps_of. cbv zeta.
  assert (Hi : (r * target_width self + c < length (x_flat self))%nat) by nia.
  rewrite !entry_rows by assumption.
  rewrite !item_map_seq by exact Hi. auto.
Qed.

Lemma focal_length_positive (cfg : Config.Config) (self : VRProcessor) :
  precompute_vr_parameters cfg = Ok self ->
  0 < tan (radians (Config.FOV_DEGREES cfg) / 2) ->
  (0 < target_width self)%nat ->
  0 < focal_length self.
Proof.
  intros Hself Htan Hw.
  destruct (@precompute_fields cfg self Hself) as (_ & _ & _ & Hf & _).
  rewrite Hf. apply Rdiv_lt_0_compat; [| exact Htan].
  assert (0 < Config.num (target_width self))
    by (unfold Config.num; apply IZR_lt; lia).
  lra.
Qed.

(** X3.  [precompute_vr_parameters] divides twice by a configured value.  A
    field of view of 0 degrees raises [ZeroDivisionError]; so does a screen
    distance of 0 with a field of view between 0 and 180 degrees; with such
    a field of view and another screen distance the processor is built,
    with an empty cache, and its focal length is positive as soon as an eye
    has a pixel; at 90 degrees the focal length is half the width of an
    eye. *)
Theorem precompute_zero_division (cfg : Config.Config) :
  (Config.FOV_DEGREES cfg = 0 ->
     precompute_vr_parameters cfg = Raise ZeroDivisionError)
  /\ (0 < Config.FOV_DEGREES cfg < 180 -> Config.SCREEN_DISTANCE cfg = 0 ->
        precompute_vr_parameters cfg = Raise ZeroDivisionError)
  /\ (0 < Config.FOV_DEGREES cfg < 180 -> Config.SCREEN_DISTANCE cfg <> 0 ->
        exists self,
          precompute_vr_parameters cfg = Ok self
          /\ map_cache self = None /\ last_orientation self = None
          /\ ((0 < target_width self)%nat -> 0 < focal_length self)
          /\ (Config.FOV_DEGREES cfg = 90 ->
              focal_length self = Config.num (target_width self) / 2)).
Proof.
  split; [| split].
  - intros Hfov. unfold precompute_vr_parameters. rewrite Hfov.
    destruct (Req_dec_T _ 0) as [| Hne]; [reflexivity |].
    exfalso. apply Hne. unfold radians.
    replace (0 * (PI / 180) / 2) with 0 by field. apply tan_0.
  - intros Hfov Hsd.
    assert (Htan : 0 < tan (radians (Config.FOV_DEGREES cfg) / 2)).
    { pose proof PI_RGT_0. unfold radians. apply tan_gt_0; nra. }
    unfold precompute_vr_parameters.
    destruct (Req_dec_T _ 0) as [E |]; [lra |].
    destruct (Req_dec_T _ 0) as [| Hne]; [reflexivity |].
    exfalso. apply Hne. rewrite Hsd. ring.
  - intros Hfov Hsd.
    destruct (precompute_succeeds cfg Hfov Hsd) as (self & Hself & Htan).
    destruct (@precompute_fields cfg self Hself)
      as (_ & _ & _ & Hf & _ & Hcache & Hlast & _).
    exists self. repeat split; try assumption.
    + now apply (@focal_length_positive cfg self Hself).
    + intros H90. rewrite Hf, H90. unfold radians.
      replace (90 * (PI / 180) / 2) with (PI / 4) by field.
      rewrite tan_PI4. field.
Qed.

(** X4.  In a processor that [precompute_vr_parameters] built, each of the
    three flat arrays has one entry per pixel of an eye, and at every index
    the x coordinate lies in [-w/2, w/2 - 1], the y coordinate in
    [-h/2, h/2 - 1], for the width [w] and the height [h] of an eye, and
    the z coordinate is the focal length. *)
Theorem precomputed_grid_is_centred (cfg : Config.Config) (self : VRProcessor) (i : nat) :
  precompute_vr_parameters cfg = Ok self ->
  (i < target_height self * target_width self)%nat ->
  let w := Config.num (target_width self) in
  let h := Config.num (target_height self) in
  length (x_flat self) = (target_height self * target_width self)%nat
  /\ length (y_flat self) = (target_height self * target_width self)%nat
  /\ length (z_flat self) = (target_height self * target_width self)%nat
  /\ - w / 2 <= item (x_flat self) i <= w / 2 - 1
  /\ - h / 2 <= item (y_flat self) i <= h / 2 - 1
  /\ item (z_flat self) i = focal_length self.
Proof.
  intros Hself Hi w h.
  destruct (@precompute_fields cfg self Hself)
    as (_ & _ & _ & _ & _ & _ & _ & (Hx & Hy & Hz) & Hgrid).
  assert (Hw : (0 < target_width self)%nat) by nia.
  set (tw := target_width self) in *.
  assert (Hr : (i / tw < target_height self)%nat)
    by (apply Nat.Div0.div_lt_upper_bound; lia).
  assert (Hc : (i mod tw < tw)%nat) by (apply Nat.mod_upper_bound; lia).
  destruct (Hgrid (i / tw)%nat (i mod tw)%nat Hr Hc) as (Ex & Ey & Ez).
  cbv zeta in Ex, Ey, Ez.
  replace (i / tw * tw + i mod tw)%nat with i in Ex, Ey, Ez
    by (rewrite (Nat.div_mod_eq i tw) at 1; lia).
  rewrite Ex, Ey, Ez.
  assert (Bc : 0 <= Config.num (i mod tw) <= w - 1).
  { unfold w, Config.num. fold tw.
    split; [apply IZR_le; lia |].
    rewrite <- minus_IZR. apply IZR_le. lia. }
  assert (Br : 0 <= Config.num (i / tw) <= h - 1).
  { unfold h, Config.num.
    split; [apply IZR_le; lia |].
    rewrite <- minus_IZR. apply IZR_le. lia. }
  unfold w, h in *. repeat split; try lra; try congruence.
Qed.

(** X5.  On a processor whose arrays have the shape of its grid, a
    recomputation with either backend returns four maps, each of as many
    rows as an eye is high and as many entries per row as it is wide. *)
Theorem recomputed_maps_have_target_shape (jit_works : bool) (self : VRProcessor)
    (yaw pitch roll : R) :
  grid_shaped self ->
  exists left_map_x left_map_y right_map_x right_map_y,
    recompute jit_works self yaw pitch roll
    = Ok (left_map_x, left_map_y, right_map_x, right_map_y)
    /\ has_shape (target_height self) (target_width self) left_map_x
    /\ has_shape (target_height self) (target_width self) left_map_y
    /\ has_shape (target_height self) (target_width self) right_map_x
    /\ has_shape (target_height self) (target_width self) right_map_y.
Proof.
  intros Hshape.
  rewrite (recompute_shaped jit_works yaw pitch roll Hshape).
  destruct Hshape as [Hx _]. unfold maps_of. cbv zeta.
  do 4 eexists. split; [reflexivity |].
  repeat split; apply rows_shape; now rewrite length_map, length_seq.
Qed.
(** The matrix at yaw 180 turns the x and the z axis around. *)
Lemma create_rotation_matrix_180 :
  create_rotation_matrix 180 0 0
  = {| m00 := -1; m01 := 0; m02 := 0;
       m10 := 0;  m11 := 1; m12 := 0;
       m20 := 0;  m21 := 0; m22 := -1 |}.
Proof.
  rewrite create_rotation_matrix_entries. cbv zeta.
  unfold radians. rewrite Rmult_0_l, cos_0, sin_0.
  replace (180 * (PI / 180)) with PI by field.
  rewrite cos_PI, sin_PI.
  apply mat3_eq; cbn [m00 m01 m02 m10 m11 m12 m20 m21 m22]; ring.
Qed.

(** X6.  With a field of view between 0 and 180 degrees and a screen
    distance other than 0, whatever the eye distance: the maps computed for
    yaw = pitch = roll = 0 send the pixel in column [c] of row [r] to
    [(c - half_ipd, r)] for the left eye and to [(c + half_ipd, r)] for the
    right eye, so the two eyes see the source shifted against each other by
    [IPD * focal_length / (SCREEN_DISTANCE * 1000)] columns and by no
    rows. *)
Theorem stereo_disparity_at_rest (jit_works : bool) (cfg : Config.Config) :
  0 < Config.FOV_DEGREES cfg < 180 ->
  Config.SCREEN_DISTANCE cfg <> 0 ->
  exists self left_map_x left_map_y right_map_x right_map_y self',
    precompute_vr_parameters cfg = Ok self
    /\ compute_distortion_maps jit_works self 0 0 0
       = Ok ((left_map_x, left_map_y, right_map_x, right_map_y), self')
    /\ forall r c, (r < target_height self)%nat -> (c < target_width self)%nat ->
         entry left_map_x r c = Config.num c - half_ipd self
         /\ entry right_map_x r c = Config.num c + half_ipd self
         /\ entry left_map_y r c = Config.num r
         /\ entry right_map_y r c = Config.num r
         /\ entry right_map_x r c - entry left_map_x r c
            = Config.IPD cfg * focal_length self / (Config.SCREEN_DISTANCE cfg * 1000).
Proof.
  intros Hfov Hsd.
  destruct (precompute_succeeds cfg Hfov Hsd) as (self & Hself & Htan).
  destruct (@precompute_fields cfg self Hself)
    as (_ & _ & _ & _ & Hhalf & _ & Hlast & Hshape & Hgrid).
  pose proof (@first_call jit_works self 0 0 0 Hshape Hlast) as Hcall.
  destruct (maps_of self (create_rotation_matrix 0 0 0))
    as [[[lx ly] rx] ry] eqn:Hmaps.
  exists self, lx, ly, rx, ry. eexists.
  split; [exact Hself | split; [exact Hcall |]].
  intros r c Hr Hc.
  pose proof (@maps_of_entries self (create_rotation_matrix 0 0 0) r c Hshape Hr Hc)
    as Hentries.
  rewrite Hmaps in Hentries. cbv zeta in Hentries.
  destruct Hentries as (Elx & Ely & Erx & Ery).
  destruct (Hgrid r c Hr Hc) as (Hx & Hy & Hz). cbv zeta in Hx, Hy, Hz.
  assert (Hpos : 0 < focal_length self)
    by (apply (@focal_length_positive cfg self Hself Htan); lia).
  assert (Hsd' : Config.SCREEN_DISTANCE cfg * 1000 <> 0) by lra.
  rewrite Elx, Ely, Erx, Ery.
  unfold screen_x, screen_y, left_point, right_point, apply.
  rewrite create_rotation_matrix_0. cbn [m00 m01 m02 m10 m11 m12 m20 m21 m22].
  rewrite Hx, Hy, Hz.
  set (f := focal_length self) in *.
  rewrite !Rltb_true by lra.
  rewrite Hhalf.
  repeat split; field; lra.
Qed.

(** X7.  With such a configuration, the maps computed for yaw = 180 and
    pitch = roll = 0 hold the sentinel -1 in every entry of both eyes: all
    of the source is behind the viewer. *)
Theorem looking_back_is_all_invalid (jit_works : bool) (cfg : Config.Config) :
  0 < Config.FOV_DEGREES cfg < 180 ->
  Config.SCREEN_DISTANCE cfg <> 0 ->
  exists self left_map_x left_map_y right_map_x right_map_y self',
    precompute_vr_parameters cfg = Ok self
    /\ compute_distortion_maps jit_works self 180 0 0
       = Ok ((left_map_x, left_map_y, right_map_x, right_map_y), self')
    /\ forall r c, (r < target_height self)%nat -> (c < target_width self)%nat ->
         entry left_map_x r c = -1 /\ entry left_map_y r c = -1
         /\ entry right_map_x r c = -1 /\ entry right_map_y r c = -1.
Proof.
  intros Hfov Hsd.
  destruct (precompute_succeeds cfg Hfov Hsd) as (self & Hself & Htan).
  destruct (@precompute_fields cfg self Hself)
    as (_ & _ & _ & _ & _ & _ & Hlast & Hshape & Hgrid).
  pose proof (@first_call jit_works self 180 0 0 Hshape Hlast) as Hcall.
  destruct (maps_of self (create_rotation_matrix 180 0 0))
    as [[[lx ly] rx] ry] eqn:Hmaps.
  exists self, lx, ly, rx, ry. eexists.
  split; [exact Hself | split; [exact Hcall |]].
  intros r c Hr Hc.
  pose proof (@maps_of_entries self (create_rotation_matrix 180 0 0) r c Hshape Hr Hc)
    as Hentries.
  rewrite Hmaps in Hentries. cbv zeta in Hentries.
  destruct Hentries as (Elx & Ely & Erx & Ery).
  destruct (Hgrid r c Hr Hc) as (_ & _ & Hz). cbv zeta in Hz.
  assert (Hpos : 0 < focal_length self)
    by (apply (@focal_length_positive cfg self Hself Htan); lia).
  rewrite Elx, Ely, Erx, Ery.
  unfold screen_x, screen_y, left_point, right_point, apply.
  rewrite create_rotation_matrix_180. cbn [m00 m01 m02 m10 m11 m12 m20 m21 m22].
  rewrite Hz.
  rewrite !Rltb_false by lra.
  auto.
Qed.

Lemma maps_of_store (self : VRProcessor) (maps : RemapMap) (o : R * R * R) (rot : mat3) :
  maps_of (store self maps o) rot = maps_of self rot.
Proof. reflexivity. Qed.

(** X8.  On a processor whose arrays have the shape of its grid and whose
    cached maps, if any, are the maps of the recorded orientation, a call
    of [compute_distortion_maps] returns, with either backend, and leaves a
    processor of the same kind; the maps it returns are the exact maps of
    an orientation that is the requested one or differs from it by less
    than [ORIENTATION_THRESHOLD] on every axis. *)
Theorem returned_maps_are_close (jit_works : bool) (self : VRProcessor)
    (yaw pitch roll : R) :
  grid_shaped self -> coherent self ->
  exists maps self' used,
    compute_distortion_maps jit_works self yaw pitch roll = Ok (maps, self')
    /\ maps = maps_of self (let '(y, p, r) := used in create_rotation_matrix y p r)
    /\ (used = (yaw, pitch, roll)
        \/ within (Config.ORIENTATION_THRESHOLD (config self)) (yaw, pitch, roll) used)
    /\ last_orientation self' = Some used
    /\ grid_shaped self' /\ coherent self'.
Proof.
  intros Hshape Hcoh.
  pose proof (recompute_shaped jit_works yaw pitch roll Hshape) as Hre.
  unfold compute_distortion_maps. rewrite Hre. cbn [bind].
  destruct (should_use_cache self (yaw, pitch, roll)) eqn:Huse;
    [destruct (map_cache self) as [cached |] eqn:Hcache |].
  - destruct (should_use_cache_within _ _ Huse) as (last & Hlast & Hwithin).
    destruct (Hcoh cached Hcache) as (y0 & p0 & r0 & Hlast' & Hcached).
    rewrite Hlast in Hlast'. injection Hlast' as ->.
    exists cached, self, (y0, p0, r0).
    split; [reflexivity | split; [exact Hcached | split; [right; exact Hwithin |]]].
    split; [exact Hlast | split; [exact Hshape | exact Hcoh]].
  - exists (maps_of self (create_rotation_matrix yaw pitch roll)).
    eexists. exists (yaw, pitch, roll).
    split; [reflexivity | split; [reflexivity | split; [now left |]]].
    split; [reflexivity | split; [exact Hshape |]].
    intros cached' Hc. cbn [store map_cache] in Hc. injection Hc as <-.
    exists yaw, pitch, roll. split; reflexivity.
  - exists (maps_of self (create_rotation_matrix yaw pitch roll)).
    eexists. exists (yaw, pitch, roll).
    split; [reflexivity | split; [reflexivity | split; [now left |]]].
    split; [reflexivity | split; [exact Hshape |]].
    intros cached' Hc. cbn [store map_cache] in Hc. injection Hc as <-.
    exists yaw, pitch, roll. split; reflexivity.
Qed.

Lemma create_rotation_matrix_turn (yaw pitch roll : R) :
  create_rotation_matrix (yaw + 360) pitch roll = create_rotation_matrix yaw pitch roll.
Proof.
  rewrite !create_rotation_matrix_entries. cbv zeta. unfold radians.
  replace ((yaw + 360) * (PI / 180)) with (yaw * (PI / 180) + 2 * INR 1 * PI)
    by (simpl; field).
  now rewrite cos_period, sin_period.
Qed.

(** X9.  The comparison with the recorded orientation does not know that
    angles wrap: after the maps for (yaw, pitch, roll) were recorded, a
    call for (yaw + 360, pitch, roll) recomputes when the threshold is at
    most 360, although the maps it stores are the same. *)
Theorem full_turn_is_recomputed (jit_works : bool) (self : VRProcessor)
    (yaw pitch roll : R) :
  grid_shaped self ->
  last_orientation self = Some (yaw, pitch, roll) ->
  Config.ORIENTATION_THRESHOLD (config self) <= 360 ->
  compute_distortion_maps jit_works self (yaw + 360) pitch roll
  = Ok (maps_of self (create_rotation_matrix yaw pitch roll),
        store self (maps_of self (create_rotation_matrix yaw pitch roll))
          (yaw + 360, pitch, roll)).
Proof.
  intros Hshape Hlast Hthreshold.
  destruct (@cache_miss jit_works self (yaw + 360) pitch roll Hshape) as [_ Hcall].
  - right. right. exists yaw, pitch, roll. split; [exact Hlast |]. left.
    replace (yaw + 360 - yaw) with 360 by ring.
    rewrite Rabs_right; lra.
  - rewrite Hcall, create_rotation_matrix_turn. reflexivity.
Qed.

(** X10.  With a threshold of 0 or less the cache is never used: every
    call recomputes the maps of the requested orientation and stores them. *)
Theorem no_threshold_no_cache (jit_works : bool) (self : VRProcessor)
    (yaw pitch roll : R) :
  grid_shaped self ->
  Config.ORIENTATION_THRESHOLD (config self) <= 0 ->
  compute_distortion_maps jit_works self yaw pitch roll
  = Ok (maps_of self (create_rotation_matrix yaw pitch roll),
        store self (maps_of self (create_rotation_matrix yaw pitch roll))
          (yaw, pitch, roll)).
Proof.
  intros Hshape Hthreshold.
  apply (@cache_miss jit_works self yaw pitch roll Hshape).
  destruct (last_orientation self) as [[[ly lp] lr] |]; [| now left].
  right. right. exists ly, lp, lr. split; [reflexivity |]. left.
  pose proof (Rabs_pos (yaw - ly)). lra.
Qed.
End ProcessorFacts.

(** ** Sensor ingest: what the queue receives *)

Section IngestQueueFacts.
Import Re Reader PyQueue Ingest.

Lemma float_raises (s : string) (e : exn) : float s = Raise e -> e = ValueError.
Proof.
  unfold float. destruct (decimal s) as [[m k] |]; [discriminate |].
  now intros [= <-].
Qed.

Lemma handle_line_sample (q : Queue Sample) (raw_line : string) (now : R) (s : Sample) :
  sample_of_line raw_line now = Some s ->
  handle_line q raw_line now
  = Ok (if full q then q else mkQueue (maxsize q) (items q ++ [s])).
Proof.
  unfold sample_of_line. intros H.
  destruct (search pattern (strip raw_line)) as [m |] eqn:Hs; [| discriminate].
  destruct (float (group m 1)) as [y |] eqn:Hy; [| discriminate].
  destruct (float (group m 2)) as [p |] eqn:Hp; [| discriminate].
  destruct (float (group m 3)) as [r |] eqn:Hr; [| discriminate].
  injection H as <-. now apply (@handle_line_numbers q raw_line now m).
Qed.

Lemma handle_line_no_sample (q : Queue Sample) (raw_line : string) (now : R) :
  sample_of_line raw_line now = None ->
  handle_line q raw_line now = Ok q \/ handle_line q raw_line now = Raise ValueError.
Proof.
  unfold sample_of_line, handle_line. intros H.
  destruct raw_line as [| c raw']; [now left |].
  destruct (search pattern (strip (String c raw'))) as [m |]; [| now left].
  right.
  destruct (float (group m 1)) as [y | e] eqn:Hy;
    [| apply float_raises in Hy; now subst e].
  destruct (float (group m 2)) as [p | e] eqn:Hp;
    [| apply float_raises in Hp; now subst e].
  destruct (float (group m 3)) as [r | e] eqn:Hr;
    [| apply float_raises in Hr; now subst e].
  discriminate.
Qed.

(** One reading either leaves the queue as it is, or appends one sample to
    a queue that is not full, or raises one of two exceptions. *)
Lemma step_cases (q : Queue Sample) (r : reading) :
  step q r = Ok q
  \/ (full q = false
      /\ exists s, step q r = Ok (mkQueue (maxsize q) (items q ++ [s])))
  \/ step q r = Raise ValueError
  \/ step q r = Raise SerialException.
Proof.
  destruct r as [| raw_line now |]; cbn [step]; [now left | | now right; right; right].
  destruct (sample_of_line raw_line now) as [s |] eqn:Hs.
  - rewrite (handle_line_sample q _ _ Hs).
    destruct (full q); [now left | right; left; eauto].
  - destruct (handle_line_no_sample q _ _ Hs) as [H | H]; rewrite H; auto.
Qed.

Lemma not_full_room (q : Queue Sample) :
  full q = false -> (0 < maxsize q)%nat -> (qsize q < maxsize q)%nat.
Proof.
  unfold full. intros H Hpos.
  apply andb_false_iff in H. destruct H as [H | H].
  - apply Nat.ltb_ge in H. lia.
  - apply Nat.leb_gt in H. exact H.
Qed.

(** X11.  Whatever is in the queue and whatever the transport delivers,
    [sensor_reader] only appends to the sensor queue: the samples that were
    queued stay, in their order, followed by at most one new sample per
    reading looked at; the capacity is as before and is not exceeded if it
    was not before; the connection is closed at the end; and the run ends
    either with every reading looked at, or on a [ValueError] or a
    [SerialException] of the reading before the unread ones. *)
Theorem sensor_reader_only_appends (q : Queue Sample) (readings : list reading) :
  let out := sensor_reader q readings in
  exists added,
    items (sensor_queue out) = items q ++ added
    /\ (length added + length (unread out) <= length readings)%nat
    /\ maxsize (sensor_queue out) = maxsize q
    /\ ((0 < maxsize q)%nat -> (qsize q <= maxsize q)%nat ->
        (qsize (sensor_queue out) <= maxsize q)%nat)
    /\ ser_is_open out = false
    /\ ((error out = None /\ unread out = [])
        \/ ((error out = Some ValueError \/ error out = Some SerialException)
            /\ (length (unread out) < length readings)%nat)).
Proof.
  cbv zeta. revert q.
  induction readings as [| r rest IH]; intros q.
  - exists []. cbn [sensor_reader sensor_queue unread error ser_is_open length].
    rewrite app_nil_r.
    split; [reflexivity | split; [lia | split; [reflexivity | split; [auto |]]]].
    split; [reflexivity | now left].
  - cbn [sensor_reader].
    destruct (step_cases q r) as [H | [[Hroom [s H]] | [H | H]]]; rewrite H.
    + destruct (IH q) as (added & Hitems & Hlen & Hmax & Hcap & Hser & Hend).
      exists added. cbn [length].
      split; [exact Hitems | split; [lia | split; [exact Hmax | split; [exact Hcap |]]]].
      split; [exact Hser |].
      destruct Hend as [Hend | [Herr Hlt]]; [now left | right; split; [exact Herr | lia]].
    + destruct (IH (mkQueue (maxsize q) (items q ++ [s])))
        as (added & Hitems & Hlen & Hmax & Hcap & Hser & Hend).
      cbn [items maxsize] in *.
      exists (s :: added). cbn [length].
      split; [now rewrite Hitems, <- app_assoc |].
      split; [lia | split; [exact Hmax | split]].
      * intros Hpos Hq. apply Hcap; [exact Hpos |].
        pose proof (not_full_room q Hroom Hpos) as Hlt.
        unfold qsize in *. cbn [items]. rewrite length_app. simpl. lia.
      * split; [exact Hser |].
        destruct Hend as [Hend | [Herr Hlt]];
          [now left | right; split; [exact Herr | lia]].
    + exists []. cbn [sensor_queue unread error ser_is_open length].
      rewrite app_nil_r.
      split; [reflexivity | split; [lia | split; [reflexivity | split; [auto |]]]].
      split; [reflexivity | right; split; [now left | lia]].
    + exists []. cbn [sensor_queue unread error ser_is_open length].
      rewrite app_nil_r.
      split; [reflexivity | split; [lia | split; [reflexivity | split; [auto |]]]].
      split; [reflexivity | right; split; [now right | lia]].
Qed.

Lemma first_kept_full (A : Type) (n : nat) (l : list A) (x : A) (rest : list A) :
  (0 < n)%nat -> (n <= length l)%nat ->
  first_kept n (l ++ x :: rest) = first_kept n (l ++ rest).
Proof.
  intros Hn Hl. destruct n as [| n]; [lia |]. unfold first_kept.
  rewrite !firstn_app.
  replace (S n - length l)%nat with 0%nat by lia. reflexivity.
Qed.

(** X12.  The sensor channel drops the new sample when it is full: when
    every reading is a line that carries a sample, [sensor_reader] looks at
    all of them without an exception, and a queue of capacity [n >= 1] ends
    with the first [n] of the samples it had and the samples offered, in
    their order; an unbounded queue ([n = 0]) ends with all of them. *)
Theorem sensor_channel_keeps_oldest (n : nat) (q : Queue Sample)
    (readings : list reading) (samples : list Sample) :
  maxsize q = n ->
  ((0 < n)%nat -> (qsize q <= n)%nat) ->
  Forall2 carries readings samples ->
  sensor_reader q readings
  = mkOutcome (mkQueue n (first_kept n (items q ++ samples))) false [] None.
Proof.
  intros Hmax Hcap Hall. revert q Hmax Hcap.
  induction Hall as [| r s readings samples (raw_line & now & -> & Hs) _ IH];
    intros q Hmax Hcap.
  - cbn [sensor_reader]. rewrite app_nil_r. f_equal.
    destruct q as [m l]. cbn [maxsize items] in *. subst m. f_equal.
    destruct n as [| n]; [reflexivity |]. unfold first_kept.
    apply eq_sym, firstn_all2. unfold qsize in Hcap. cbn [items] in Hcap. lia.
  - cbn [sensor_reader step]. rewrite (handle_line_sample q _ _ Hs).
    destruct (full q) eqn:Hfull.
    + rewrite (IH q Hmax Hcap).
      apply full_iff in Hfull. destruct Hfull as [Hpos Hge].
      rewrite first_kept_full; [reflexivity | lia | unfold qsize in Hge; lia].
    + rewrite IH; cbn [maxsize items].
      * now rewrite <- app_assoc.
      * exact Hmax.
      * intros Hpos. rewrite <- Hmax in Hpos.
        pose proof (not_full_room q Hfull Hpos) as Hlt.
        unfold qsize in *. cbn [items]. rewrite length_app. simpl. lia.
Qed.
End IngestQueueFacts.

(** ** Sensor fusion: the fusion turn *)

Section FusionFacts.
Import PyQueue Filters FusionLoop.
Local Open Scope R_scope.

Lemma updates_snd_cons (self : LowPassFilter) (raw : R) (rest : list R) :
  snd (updates self (raw :: rest)) = snd (updates (snd (update self raw)) rest).
Proof.
  simpl. destruct (update self raw) as [out self1]. simpl.
  now destruct (updates self1 rest).
Qed.

(** The orientation published after the samples [l] went through the
    filters [filters], when [self] was published before. *)
Lemma process_loop_run (n : nat) (l : list Reader.Sample) :
  forall (fuel : nat) (filters : AxisFilters) (self : Fusion.SensorFusion),
    (length l < fuel)%nat ->
    let yaws := map Reader.yaw l in
    let pitches := map Reader.pitch l in
    let rolls := map Reader.roll l in
    process_loop fuel filters self (mkQueue n l)
    = (mkAxisFilters (snd (updates (yaw_filter filters) yaws))
                     (snd (updates (pitch_filter filters) pitches))
                     (snd (updates (roll_filter filters) rolls)),
       match l with
       | [] => self
       | _ :: _ =>
           Fusion.mkSensorFusion
             (Fusion.mkSensorData
                (last (fst (updates (yaw_filter filters) yaws)) 0)
                (last (fst (updates (pitch_filter filters) pitches)) 0)
                (last (fst (updates (roll_filter filters) rolls)) 0))
       end,
       mkQueue n []).
Proof.
  induction l as [| data rest IH]; intros fuel filters self Hfuel; cbv zeta.
  - destruct fuel as [| fuel]; [simpl in Hfuel; lia |].
    destruct filters. reflexivity.
  - destruct fuel as [| fuel]; [simpl in Hfuel; lia |].
    cbn [process_loop empty items get_nowait maxsize].
    destruct (update (yaw_filter filters) (Reader.yaw data)) as [fy yf] eqn:Ey.
    destruct (update (pitch_filter filters) (Reader.pitch data)) as [fp pf] eqn:Ep.
    destruct (update (roll_filter filters) (Reader.roll data)) as [fr rf] eqn:Er.
    rewrite IH by (simpl in Hfuel; lia). cbv zeta.
    cbn [yaw_filter pitch_filter roll_filter map].
    rewrite !updates_snd_cons, !updates_cons, Ey, Ep, Er. cbn [fst snd].
    f_equal. f_equal.
    destruct rest as [| data' rest']; [reflexivity |].
    cbn [map]. rewrite !updates_cons. reflexivity.
Qed.

(** X16.  [process_sensor_data] empties the sensor queue, whatever it
    holds: each filter has seen the values of its axis of all the queued
    samples, oldest first; the orientation published at the end is made of
    the last output of each filter, and is the one published before when
    the queue was empty. *)
Theorem process_sensor_data_drains (filters : AxisFilters)
    (self : Fusion.SensorFusion) (sensor_queue : Queue Reader.Sample) :
  let yaws := map Reader.yaw (items sensor_queue) in
  let pitches := map Reader.pitch (items sensor_queue) in
  let rolls := map Reader.roll (items sensor_queue) in
  let '(filters', self', sensor_queue') :=
    process_sensor_data filters self sensor_queue in
  sensor_queue' = mkQueue (maxsize sensor_queue) []
  /\ empty sensor_queue' = true
  /\ yaw_filter filters' = snd (updates (yaw_filter filters) yaws)
  /\ pitch_filter filters' = snd (updates (pitch_filter filters) pitches)
  /\ roll_filter filters' = snd (updates (roll_filter filters) rolls)
  /\ (items sensor_queue = [] -> self' = self)
  /\ (items sensor_queue <> [] ->
      Fusion.get_sensor_data self'
      = Fusion.mkSensorData
          (last (fst (updates (yaw_filter filters) yaws)) 0)
          (last (fst (updates (pitch_filter filters) pitches)) 0)
          (last (fst (updates (roll_filter filters) rolls)) 0)).
Proof.
  cbv zeta. unfold process_sensor_data, qsize.
  destruct sensor_queue as [n l]. cbn [items maxsize].
  rewrite process_loop_run by lia. cbv zeta.
  repeat split.
  - intros ->. reflexivity.
  - intros Hne. destruct l; [contradiction | reflexivity].
Qed.

Lemma update_bounded (self : LowPassFilter) (raw lo hi : R) :
  0 < alpha self <= 1 ->
  lo <= raw <= hi ->
  (forall previous, value self = Some previous -> lo <= previous <= hi) ->
  lo <= fst (update self raw) <= hi
  /\ forall v, value (snd (update self raw)) = Some v -> lo <= v <= hi.
Proof.
  intros Ha Hraw Hprev. unfold update.
  destruct (value self) as [previous |]; cbn [fst snd value].
  - specialize (Hprev previous eq_refl).
    assert (lo <= alpha self * raw + (1 - alpha self) * previous <= hi) by nra.
    split; [assumption | now intros v [= <-]].
  - split; [assumption | now intros v [= <-]].
Qed.

Lemma updates_bounded (lo hi : R) (raws : list R) : forall self : LowPassFilter,
  0 < alpha self <= 1 ->
  Forall (fun raw => lo <= raw <= hi) raws ->
  (forall previous, value self = Some previous -> lo <= previous <= hi) ->
  Forall (fun out => lo <= out <= hi) (fst (updates self raws)).
Proof.
  induction raws as [| raw rest IH]; intros self Ha Hraws Hprev; [constructor |].
  inversion Hraws as [| ? ? Hraw Hrest]; subst.
  rewrite updates_cons.
  destruct (update_bounded self Ha Hraw Hprev) as [Hout Hnext].
  constructor; [exact Hout |].
  apply IH; [now rewrite update_alpha | exact Hrest | exact Hnext].
Qed.

Lemma last_Forall (P : R -> Prop) (l : list R) (d : R) :
  l <> [] -> Forall P l -> P (last l d).
Proof.
  intros Hne Hall. induction Hall as [| x l Hx Hall IH]; [contradiction |].
  destruct l as [| y l']; [exact Hx |]. apply IH. discriminate.
Qed.

(** X17.  With the smoothing of section 4.1 of the specification (the
    filter class is not among the sources) and a factor in (0, 1]: when
    [process_sensor_data] starts from new filters and the yaw of every
    queued sample lies between [lo] and [hi], the yaw it publishes lies
    between [lo] and [hi]; the same holds for pitch and for roll.  The
    smoothing never leaves the range of what the sensor sent. *)
Theorem published_orientation_in_sample_range (config : Config.Config)
    (self : Fusion.SensorFusion) (sensor_queue : Queue Reader.Sample)
    (lo hi : R) :
  0 < Config.SENSOR_FILTER_ALPHA config <= 1 ->
  items sensor_queue <> [] ->
  let '(_, self', _) :=
    process_sensor_data (new_filters config) self sensor_queue in
  let published := Fusion.get_sensor_data self' in
  (Forall (fun s => lo <= Reader.yaw s <= hi) (items sensor_queue) ->
     lo <= Fusion.yaw published <= hi)
  /\ (Forall (fun s => lo <= Reader.pitch s <= hi) (items sensor_queue) ->
        lo <= Fusion.pitch published <= hi)
  /\ (Forall (fun s => lo <= Reader.roll s <= hi) (items sensor_queue) ->
        lo <= Fusion.roll published <= hi).
Proof.
  intros Ha Hne.
  unfold process_sensor_data, qsize.
  destruct sensor_queue as [n l]. cbn [items] in *.
  rewrite process_loop_run by lia. cbv zeta.
  destruct l as [| data rest]; [contradiction |].
  set (l := data :: rest) in *.
  unfold Fusion.get_sensor_data.
  cbn [Fusion.sensor_data Fusion.yaw Fusion.pitch Fusion.roll
       new_filters yaw_filter pitch_filter roll_filter].
  assert (Hlast : forall (proj : Reader.Sample -> R),
             Forall (fun s => lo <= proj s <= hi) l ->
             lo <= last (fst (updates (Filters.new (Config.SENSOR_FILTER_ALPHA config))
                                (map proj l))) 0 <= hi).
  { intros proj Hall.
    apply (@last_Forall (fun out => lo <= out <= hi)).
    - intros E. apply (f_equal (@length R)) in E.
      rewrite updates_length, length_map in E. discriminate.
    - apply updates_bounded; [exact Ha | | discriminate].
      apply Forall_map. exact Hall. }
  split; [| split]; intros Hall; now apply Hlast.
Qed.
End FusionFacts.

(** ** The channels and the render loop *)

Section UnboundedChannelFacts.
Import PyQueue.
Variable A : Type.

(** X15.  A channel made with capacity 0 is unbounded, as [queue.Queue]
    has it: it is never full, and the pushes of the capture and the render
    loop drop nothing, however many there are. *)
Theorem unbounded_channel_drops_nothing (q : Queue A) (xs : list A) :
  maxsize q = 0%nat ->
  full q = false
  /\ put_all q xs = Ok (mkQueue 0 (items q ++ xs)).
Proof.
  intros Hmax. split; [unfold full; now rewrite Hmax |].
  revert q Hmax. induction xs as [| x xs IH]; intros q Hmax.
  - cbn [put_all]. rewrite app_nil_r. destruct q. cbn [maxsize] in Hmax.
    now subst.
  - cbn [put_all]. unfold put_drop_oldest, put_nowait, full. rewrite Hmax.
    cbn [Nat.ltb Nat.leb andb]. rewrite IH by reflexivity.
    cbn [items]. now rewrite <- app_assoc.
Qed.
End UnboundedChannelFacts.

Section RenderLoopFacts.
Import PyQueue VRDistortion Display.
Local Open Scope R_scope.

Variable Frame : Type.
Variable remap : Frame -> grid -> grid -> Frame.
Variable hstack : Frame -> Frame -> Frame.
Variable shape : Frame -> nat * nat.
Variable resize : Frame -> nat * nat -> Frame.
Variable jit_works : bool.

Lemma reshape_raises (a : array) (h w : nat) (e : exn) :
  reshape a h w = Raise e -> e = ValueError.
Proof.
  unfold reshape. destruct (length a =? h * w)%nat; [discriminate |].
  now intros [= <-].
Qed.

Lemma columns_raises : forall (xs ys zs : array) (e : exn),
  columns xs ys zs = Raise e -> e = ValueError.
Proof.
  induction xs as [| x xs IH]; intros [| y ys] [| z zs] e; cbn [columns];
    try discriminate; try (now intros [= <-]).
  destruct (columns xs ys zs) as [rest | e'] eqn:E; [discriminate |].
  intros [= <-]. now apply (IH ys zs).
Qed.

Ltac raises_value_error :=
  repeat match goal with
         | |- bind ?m _ = Raise _ -> _ =>
             let E := fresh "E" in
             destruct m eqn:E; cbn [bind];
             [| intros [= <-];
                first [ now apply reshape_raises in E
                      | now apply columns_raises in E ] ]
         | |- (let (_, _) := ?p in _) = Raise _ -> _ => destruct p
         end.

Lemma fallback_raises (self : VRProcessor) (yaw pitch roll : R) (e : exn) :
  compute_vr_distortion_fallback self yaw pitch roll = Raise e -> e = ValueError.
Proof.
  unfold compute_vr_distortion_fallback. raises_value_error. discriminate.
Qed.

Lemma compute_distortion_maps_raises (self : VRProcessor) (yaw pitch roll : R) (e : exn) :
  compute_distortion_maps jit_works self yaw pitch roll = Raise e -> e = ValueError.
Proof.
  unfold compute_distortion_maps.
  assert (H : forall e', recompute jit_works self yaw pitch roll = Raise e' ->
                         e' = ValueError).
  { intros e'. unfold recompute, try_except.
    destruct jit_works; [| apply fallback_raises].
    destruct (compute_vr_distortion _ _ _ _ _ _ _ _ _ _); [discriminate |].
    apply fallback_raises. }
  destruct (should_use_cache self (yaw, pitch, roll));
    [destruct (map_cache self); [discriminate |] |];
    (destruct (recompute jit_works self yaw pitch roll) as [maps | e'] eqn:E;
     cbn [bind]; [discriminate | intros [= <-]; now apply H]).
Qed.

Lemma render_frame_raises (self : VRProcessor) (frame : Frame)
    (yaw pitch roll : R) (e : exn) :
  render_frame remap hstack shape resize jit_works self frame yaw pitch roll = Raise e ->
  e = ValueError.
Proof.
  unfold render_frame.
  destruct (compute_distortion_maps jit_works self yaw pitch roll)
    as [[[[[lx ly] rx] ry] self'] | e'] eqn:E; cbn [bind].
  - destruct (_ || _); discriminate.
  - intros [= <-]. now apply compute_distortion_maps_raises in E.
Qed.

(** X14.  One turn of the render loop, on any state.  Either nothing
    changes; or the oldest waiting frame is taken, rendered at the current
    orientation, and the result is appended to the output channel, from
    which nothing is removed: the render loop itself never drops a rendered
    frame, because it only renders when the output channel is not full; or
    the rendering raises [ValueError], which ends the thread.  Nothing
    changes exactly when the output channel is full or no frame waits. *)
Theorem render_turn_takes_one_frame (self : VRDisplayApp Frame) :
  match render_frame_thread_step remap hstack shape resize jit_works self with
  | Ok self' =>
      (self' = self
       /\ (full (render_buffer self) = true \/ items (frame_buffer self) = []))
      \/ (exists frame waiting combined_frame vr_processor',
            full (render_buffer self) = false
            /\ items (frame_buffer self) = frame :: waiting
            /\ (let '(yaw, pitch, roll) := current_orientation self in
                render_frame remap hstack shape resize jit_works
                  (vr_processor self) frame yaw pitch roll)
               = Ok (combined_frame, vr_processor')
            /\ self' = mkApp (config self)
                         (mkQueue (maxsize (frame_buffer self)) waiting)
                         (mkQueue (maxsize (render_buffer self))
                            (items (render_buffer self) ++ [combined_frame]))
                         vr_processor' (sensor_fusion self))
  | Raise e =>
      e = ValueError
      /\ full (render_buffer self) = false
      /\ items (frame_buffer self) <> []
  end.
Proof.
  unfold render_frame_thread_step.
  destruct (full (render_buffer self)) eqn:Hfull; [left; auto |].
  unfold empty, get_nowait.
  destruct (items (frame_buffer self)) as [| frame waiting] eqn:Hitems; [left; auto |].
  destruct (current_orientation self) as [[yaw pitch] roll].
  destruct (render_frame remap hstack shape resize jit_works
              (vr_processor self) frame yaw pitch roll)
    as [[combined_frame vr_processor'] | e] eqn:Hrender.
  - unfold put_drop_oldest, put_nowait. rewrite Hfull.
    right. exists frame, waiting, combined_frame, vr_processor'. auto.
  - apply render_frame_raises in Hrender. subst e.
    split; [reflexivity | split; [reflexivity | discriminate]].
Qed.

(** X19.  When [cv2.resize] gives an image of the size it is asked for, the
    frame that [render_frame] returns has the configured output size,
    [HEIGHT // 2] rows of [WIDTH] columns, whatever the size of the two
    eyes side by side. *)
Theorem render_frame_has_output_size (self : VRProcessor) (frame : Frame)
    (yaw pitch roll : R) (combined_frame : Frame) (self' : VRProcessor) :
  (forall image size, shape (resize image size) = (snd size, fst size)) ->
  render_frame remap hstack shape resize jit_works self frame yaw pitch roll
  = Ok (combined_frame, self') ->
  shape combined_frame
  = ((Config.HEIGHT (VRDistortion.config self) / 2)%nat,
     Config.WIDTH (VRDistortion.config self)).
Proof.
  intros Hresize. unfold render_frame.
  destruct (compute_distortion_maps jit_works self yaw pitch roll)
    as [[[[[lx ly] rx] ry] self1] | e]; cbn [bind]; [| discriminate].
  set (combined := hstack (remap frame lx ly) (remap frame rx ry)).
  destruct (negb (snd (shape combined) =? _)%nat || _) eqn:Htest;
    intros [= <- <-].
  - apply Hresize.
  - apply orb_false_iff in Htest. destruct Htest as [H1 H2].
    apply negb_false_iff, Nat.eqb_eq in H1.
    apply negb_false_iff, Nat.eqb_eq in H2.
    rewrite (surjective_pairing (shape combined)). now rewrite H1, H2.
Qed.
End RenderLoopFacts.

(** ** The cursor overlay *)

Section CaptureFacts.
Import Capture.
Local Open Scope R_scope.

Variable Frame : Type.
Variable circle : Frame -> Z * Z -> nat -> nat * nat * nat -> Frame.

Lemma num_pos (n : nat) : (0 < n)%nat -> 0 < Config.num n.
Proof. intros H. unfold Config.num. apply IZR_lt. lia. Qed.

(** A screen coordinate scaled to the capture stays inside it. *)
Lemma scaled_coordinate (x : Z) (capture screen : nat) :
  (0 < capture)%nat -> (0 < screen)%nat ->
  (0 <= x < Z.of_nat screen)%Z ->
  (0 <= py_int (IZR x * (Config.num capture / Config.num screen)) < Z.of_nat capture)%Z.
Proof.
  intros Hc Hs [Hx0 Hx1].
  pose proof (num_pos Hc) as Hcap. pose proof (num_pos Hs) as Hscr.
  set (q := Config.num capture / Config.num screen).
  assert (Hq : q * Config.num screen = Config.num capture)
    by (unfold q; field; lra).
  assert (Hqpos : 0 < q) by (unfold q; now apply Rdiv_lt_0_compat).
  assert (Hx0' : 0 <= IZR x) by (now apply IZR_le).
  assert (Hx1' : IZR x < Config.num screen) by (unfold Config.num; now apply IZR_lt).
  assert (Hr0 : 0 <= IZR x * q) by nra.
  assert (Hr1 : IZR x * q < Config.num capture) by nra.
  unfold py_int. destruct (Rle_dec 0 (IZR x * q)) as [_ | Hneg]; [| contradiction].
  destruct (base_Int_part (IZR x * q)) as [Hle Hgt].
  split.
  - assert (-1 < IZR (Int_part (IZR x * q))) by lra.
    assert (-1 < Int_part (IZR x * q))%Z by (now apply lt_IZR).
    lia.
  - apply lt_IZR. unfold Config.num in Hr1. lra.
Qed.

(** X18.  [overlay_cursor] divides by the screen dimensions: a screen width
    of 0, or a screen height of 0, raises [ZeroDivisionError].  On a screen
    and a capture of positive size, a cursor on the screen is drawn (with
    the configured size and colour) at a centre inside the capture: column
    in [0, CAPTURE_WIDTH), row in [0, CAPTURE_HEIGHT). *)
Theorem cursor_is_drawn_inside_capture (self : ScreenCapture) (frame : Frame) (x y : Z) :
  (screen_width self = 0%nat ->
     overlay_cursor circle self frame x y = Raise ZeroDivisionError)
  /\ (screen_height self = 0%nat ->
        overlay_cursor circle self frame x y = Raise ZeroDivisionError)
  /\ ((0 < screen_width self)%nat -> (0 < screen_height self)%nat ->
      (0 < Config.CAPTURE_WIDTH (config self))%nat ->
      (0 < Config.CAPTURE_HEIGHT (config self))%nat ->
      (0 <= x < Z.of_nat (screen_width self))%Z ->
      (0 <= y < Z.of_nat (screen_height self))%Z ->
      exists x' y',
        overlay_cursor circle self frame x y
        = Ok (circle frame (x', y') (Config.CURSOR_SIZE (config self))
                (Config.CURSOR_COLOR (config self)))
        /\ (0 <= x' < Z.of_nat (Config.CAPTURE_WIDTH (config self)))%Z
        /\ (0 <= y' < Z.of_nat (Config.CAPTURE_HEIGHT (config self)))%Z).
Proof.
  unfold overlay_cursor, scaled_position. split; [| split].
  - intros ->. reflexivity.
  - intros ->. destruct (screen_width self =? 0)%nat; reflexivity.
  - intros Hsw Hsh Hcw Hch Hx Hy.
    replace (screen_width self =? 0)%nat with false
      by (symmetry; apply Nat.eqb_neq; lia).
    replace (screen_height self =? 0)%nat with false
      by (symmetry; apply Nat.eqb_neq; lia).
    do 2 eexists. split; [reflexivity |].
    split; now apply scaled_coordinate.
Qed.
End CaptureFacts.

(** ** The further properties at concrete inputs *)

Section MoreInstances.
Import PyQueue MathUtils VRDistortion Projection Coherence Examples MoreExamples.
Local Open Scope R_scope.

Lemma exact_processor_shaped (cache : option RemapMap) (last : option (R * R * R)) :
  grid_shaped (exact_processor cache last).
Proof. repeat split. Qed.

(** X3 at config.py: the processor is built and its focal length is 320,
    half of the 640 columns of an eye. *)
Lemma precompute_zero_division_witness :
  exists self,
    precompute_vr_parameters Config.config = Ok self
    /\ target_width self = 640%nat
    /\ focal_length self = 320.
Proof.
  destruct (precompute_zero_division Config.config) as [_ [_ H]].
  destruct H as (self & Hself & _ & _ & _ & H90).
  - simpl. lra.
  - simpl. lra.
  - destruct (@precompute_fields Config.config self Hself) as (_ & Hw & _).
    change (Config.CAPTURE_WIDTH Config.config / 2)%nat with 640%nat in Hw.
    exists self. split; [exact Hself | split; [exact Hw |]].
    rewrite (H90 eq_refl), Hw. unfold Config.num.
    change (Z.of_nat 640) with 640%Z. lra.
Defined.

(** X4 at the one-pixel processor: its only pixel is at (-1/2, -1/2). *)
Lemma precomputed_grid_is_centred_witness :
  let self := pixel_processor None None in
  - (1 / 2) <= item (x_flat self) 0 <= 1 / 2 - 1
  /\ - (1 / 2) <= item (y_flat self) 0 <= 1 / 2 - 1
  /\ item (z_flat self) 0 = focal_length self.
Proof.
  intros self.
  destruct (@precomputed_grid_is_centred small_config self 0%nat)
    as (_ & _ & _ & Hx & Hy & Hz).
  - exact pixel_processor_init.
  - simpl. lia.
  - cbv zeta in Hx, Hy.
    change (Config.num (target_width self)) with 1 in Hx.
    change (Config.num (target_height self)) with 1 in Hy.
    split; [lra | split; [lra | exact Hz]].
Defined.

(** X5 at the one-pixel processor: four maps of one row of one entry. *)
Lemma recomputed_maps_have_target_shape_witness :
  exists left_map_x left_map_y right_map_x right_map_y,
    recompute false (pixel_processor None None) 30 20 10
    = Ok (left_map_x, left_map_y, right_map_x, right_map_y)
    /\ length left_map_x = 1%nat /\ length right_map_y = 1%nat.
Proof.
  destruct (@recomputed_maps_have_target_shape false (pixel_processor None None)
              30 20 10 (pixel_processor_shaped _ _))
    as (lx & ly & rx & ry & H & [Hlx _] & _ & _ & [Hry _]).
  exists lx, ly, rx, ry. auto.
Defined.

(** X6 at config.py: the right map is 63 * 320 / 2000 = 10.08 columns to
    the right of the left map, at the pixel in the middle and everywhere. *)
Lemma stereo_disparity_at_rest_witness :
  exists self left_map_x left_map_y right_map_x right_map_y self',
    precompute_vr_parameters Config.config = Ok self
    /\ compute_distortion_maps true self 0 0 0
       = Ok ((left_map_x, left_map_y, right_map_x, right_map_y), self')
    /\ entry right_map_x 360 320 - entry left_map_x 360 320 = 10.08
    /\ entry left_map_y 360 320 = 360.
Proof.
  destruct (@stereo_disparity_at_rest true Config.config)
    as (self & lx & ly & rx & ry & self' & Hself & Hcall & Hpixel).
  - simpl. lra.
  - simpl. lra.
  - destruct (@precompute_fields Config.config self Hself)
      as (_ & Hw & Hh & Hf & _).
    change (Config.CAPTURE_WIDTH Config.config / 2)%nat with 640%nat in Hw.
    change (Config.CAPTURE_HEIGHT Config.config) with 720%nat in Hh.
    assert (Hfocal : focal_length self = 320).
    { rewrite Hf, Hw. unfold Config.num, radians.
      change (Z.of_nat 640) with 640%Z.
      change (Config.FOV_DEGREES Config.config) with 90.
      replace (90 * (PI / 180) / 2) with (PI / 4) by field.
      rewrite tan_PI4. lra. }
    exists self, lx, ly, rx, ry, self'.
    destruct (Hpixel 360%nat 320%nat) as (_ & _ & Hly & _ & Hdiff).
    + rewrite Hh. apply Nat.ltb_lt. reflexivity.
    + rewrite Hw. apply Nat.ltb_lt. reflexivity.
    + split; [exact Hself | split; [exact Hcall | split]].
      * rewrite Hdiff, Hfocal. simpl. lra.
      * rewrite Hly. unfold Config.num. change (Z.of_nat 360) with 360%Z. reflexivity.
Defined.

(** X7 at config.py: looking back, the pixel in the middle is invalid. *)
Lemma looking_back_is_all_invalid_witness :
  exists self left_map_x left_map_y right_map_x right_map_y self',
    precompute_vr_parameters Config.config = Ok self
    /\ compute_distortion_maps true self 180 0 0
       = Ok ((left_map_x, left_map_y, right_map_x, right_map_y), self')
    /\ entry left_map_x 360 320 = -1 /\ entry right_map_y 360 320 = -1.
Proof.
  destruct (@looking_back_is_all_invalid true Config.config)
    as (self & lx & ly & rx & ry & self' & Hself & Hcall & Hpixel).
  - simpl. lra.
  - simpl. lra.
  - destruct (@precompute_fields Config.config self Hself) as (_ & Hw & Hh & _).
    change (Config.CAPTURE_WIDTH Config.config / 2)%nat with 640%nat in Hw.
    change (Config.CAPTURE_HEIGHT Config.config) with 720%nat in Hh.
    exists self, lx, ly, rx, ry, self'.
    destruct (Hpixel 360%nat 320%nat) as (Hlx & _ & _ & Hry).
    + rewrite Hh. apply Nat.ltb_lt. reflexivity.
    + rewrite Hw. apply Nat.ltb_lt. reflexivity.
    + auto.
Defined.

Lemma recorded_processor_coherent (yaw pitch roll : R) :
  let self := pixel_processor None None in
  coherent (pixel_processor
              (Some (maps_of self (create_rotation_matrix yaw pitch roll)))
              (Some (yaw, pitch, roll))).
Proof.
  intros self cached H. cbn [pixel_processor map_cache] in H. injection H as <-.
  exists yaw, pitch, roll. split; reflexivity.
Qed.

(** X8 at the one-pixel processor that recorded (0, 0, 0): asked for
    (0.2, 0, 0), it returns the maps of (0, 0, 0). *)
Lemma returned_maps_are_close_witness :
  let fresh := pixel_processor None None in
  let self := pixel_processor (Some (maps_of fresh (create_rotation_matrix 0 0 0)))
                (Some (0, 0, 0)) in
  exists maps self' used,
    compute_distortion_maps true self 0.2 0 0 = Ok (maps, self')
    /\ (used = (0.2, 0, 0) \/ within 0.5 (0.2, 0, 0) used)
    /\ last_orientation self' = Some used.
Proof.
  intros fresh self.
  destruct (@returned_maps_are_close true self 0.2 0 0)
    as (maps & self' & used & Hcall & _ & Hused & Hlast & _).
  - apply pixel_processor_shaped.
  - apply recorded_processor_coherent.
  - exists maps, self', used. auto.
Defined.

(** X9 at the one-pixel processor that recorded (0, 0, 0), threshold 0.5:
    the call for (0 + 360, 0, 0) recomputes and records the new yaw. *)
Lemma full_turn_is_recomputed_witness :
  let self := pixel_processor (Some marked_maps) (Some (0, 0, 0)) in
  compute_distortion_maps true self (0 + 360) 0 0
  = Ok (maps_of self (create_rotation_matrix 0 0 0),
        store self (maps_of self (create_rotation_matrix 0 0 0)) (0 + 360, 0, 0)).
Proof.
  intros self.
  apply (@full_turn_is_recomputed true self 0 0 0).
  - apply pixel_processor_shaped.
  - reflexivity.
  - cbn [self VRDistortion.config pixel_processor small_config
         Config.ORIENTATION_THRESHOLD]. lra.
Defined.

(** X10 at the one-pixel processor with the threshold 0 that recorded
    (0, 0, 0) with [marked_maps]: the same orientation is recomputed. *)
Lemma no_threshold_no_cache_witness :
  let self := exact_processor (Some marked_maps) (Some (0, 0, 0)) in
  compute_distortion_maps true self 0 0 0
  = Ok (maps_of self (create_rotation_matrix 0 0 0),
        store self (maps_of self (create_rotation_matrix 0 0 0)) (0, 0, 0)).
Proof.
  intros self.
  apply (@no_threshold_no_cache true self 0 0 0).
  - apply exact_processor_shaped.
  - cbn [self VRDistortion.config exact_processor exact_config
         Config.ORIENTATION_THRESHOLD]. lra.
Defined.

Lemma noise_line_carries (now : R) :
  Ingest.carries (Reader.Line Reader.noise_line now) (Reader.mkSample (-12.5) 3 0 now).
Proof.
  exists Reader.noise_line, now. split; [reflexivity |].
  unfold Ingest.sample_of_line.
  replace (Re.search Reader.pattern (Re.strip Reader.noise_line))
    with (Some ["-12.50"; "3.0"; "0.00"]%string) by (vm_compute; reflexivity).
  unfold Re.float.
  replace (Re.decimal (Re.group ["-12.50"; "3.0"; "0.00"]%string 1))
    with (Some ((-1250)%Z, 2%nat)) by (vm_compute; reflexivity).
  replace (Re.decimal (Re.group ["-12.50"; "3.0"; "0.00"]%string 2))
    with (Some (30%Z, 1%nat)) by (vm_compute; reflexivity).
  replace (Re.decimal (Re.group ["-12.50"; "3.0"; "0.00"]%string 3))
    with (Some (0%Z, 2%nat)) by (vm_compute; reflexivity).
  f_equal. f_equal; simpl; lra.
Qed.

(** X12 at a sensor queue of capacity 1: of the line of the specification
    read at the times 1 and 2, the sample of time 1 is kept. *)
Lemma sensor_channel_keeps_oldest_witness :
  Reader.sensor_reader (PyQueue.new 1)
    [Reader.Line Reader.noise_line 1; Reader.Line Reader.noise_line 2]
  = Reader.mkOutcome (mkQueue 1 [Reader.mkSample (-12.5) 3 0 1]) false [] None.
Proof.
  apply (@sensor_channel_keeps_oldest 1 (PyQueue.new 1)
           [Reader.Line Reader.noise_line 1; Reader.Line Reader.noise_line 2]
           [Reader.mkSample (-12.5) 3 0 1; Reader.mkSample (-12.5) 3 0 2]).
  - reflexivity.
  - intros _. unfold qsize. simpl. lia.
  - repeat constructor; apply noise_line_carries.
Defined.

(** X13 at the line of the specification. *)
Lemma pattern_groups_witness :
  exists g1 g2 g3 : string,
    ["-12.50"; "3.0"; "0.00"]%string = [g1; g2; g3]
    /\ (Re.all_in Re.NumberChar g1 = true /\ g1 <> EmptyString)
    /\ (Re.all_in Re.NumberChar g2 = true /\ g2 <> EmptyString)
    /\ (Re.all_in Re.NumberChar g3 = true /\ g3 <> EmptyString).
Proof.
  apply (@pattern_groups (Re.strip Reader.noise_line)
           ["-12.50"; "3.0"; "0.00"]%string).
  vm_compute. reflexivity.
Defined.

(** X15 at an unbounded channel: three frames pushed, three frames kept. *)
Lemma unbounded_channel_drops_nothing_witness :
  put_all (PyQueue.new 0) [1; 2; 3]%nat = Ok (mkQueue 0 [1; 2; 3]%nat).
Proof.
  destruct (@unbounded_channel_drops_nothing nat (PyQueue.new 0) [1; 2; 3]%nat)
    as [_ H].
  - reflexivity.
  - exact H.
Defined.

(** X17 at config.py ([SENSOR_FILTER_ALPHA = 0.05]) and a queue with the
    yaws 10 and 30: the published yaw lies between 10 and 30. *)
Lemma published_orientation_in_sample_range_witness :
  let '(_, self', _) :=
    FusionLoop.process_sensor_data (FusionLoop.new_filters Config.config)
      Fusion.new two_samples in
  10 <= Fusion.yaw (Fusion.get_sensor_data self') <= 30.
Proof.
  pose proof (@published_orientation_in_sample_range Config.config Fusion.new
                two_samples 10 30) as H.
  destruct (FusionLoop.process_sensor_data (FusionLoop.new_filters Config.config)
              Fusion.new two_samples) as [[filters' self'] queue'].
  destruct H as [Hyaw _].
  - simpl. lra.
  - discriminate.
  - apply Hyaw. repeat constructor; simpl; lra.
Defined.

(** X19 with images known by their size: an eye image of 1 x 2 pixels gives
    two eyes of 1 x 4 pixels side by side, which are resized to the
    720 x 2560 of config.py. *)
Lemma render_frame_has_output_size_witness :
  exists combined_frame self',
    render_frame sized_remap sized_hstack sized_shape sized_resize true
      (pixel_processor (Some marked_maps) (Some (0, 0, 0))) (1, 2)%nat 0 0 0
    = Ok (combined_frame, self')
    /\ sized_shape combined_frame = (720, 2560)%nat.
Proof.
  assert (Hcall : render_frame sized_remap sized_hstack sized_shape sized_resize true
                    (pixel_processor (Some marked_maps) (Some (0, 0, 0)))
                    (1, 2)%nat 0 0 0
                  = Ok ((720, 2560)%nat,
                        pixel_processor (Some marked_maps) (Some (0, 0, 0)))).
  { unfold render_frame, compute_distortion_maps, should_use_cache.
    cbn [last_orientation map_cache pixel_processor
         VRDistortion.config small_config Config.ORIENTATION_THRESHOLD].
    rewrite !Rltb_true by (apply Rabs_small; lra).
    reflexivity. }
  exists (720, 2560)%nat, (pixel_processor (Some marked_maps) (Some (0, 0, 0))).
  split; [exact Hcall |].
  apply (@render_frame_has_output_size (nat * nat) sized_remap sized_hstack
           sized_shape sized_resize true _ _ _ _ _ _ _ (fun _ _ => eq_refl) Hcall).
Defined.

(** X18 at the 2560 x 1440 screen of [screen] under config.py, with a
    drawing that gives back the centre it is given: the cursor in the
    middle of the screen is drawn inside the 1280 x 720 capture. *)
Lemma cursor_is_drawn_inside_capture_witness :
  exists x' y',
    Capture.overlay_cursor (fun (_ : Z * Z) center _ _ => center) screen
      (0, 0)%Z 1280 720
    = Ok (x', y')
    /\ (0 <= x' < 1280)%Z /\ (0 <= y' < 720)%Z.
Proof.
  destruct (@cursor_is_drawn_inside_capture (Z * Z)
              (fun (_ : Z * Z) center _ _ => center)
              screen (0, 0)%Z 1280%Z 720%Z) as [_ [_ H]].
  destruct H as (x' & y' & Hcall & Hx & Hy);
    try (apply Nat.ltb_lt; reflexivity);
    try (split; [apply Z.leb_le | apply Z.ltb_lt]; reflexivity).
  exists x', y'. split; [exact Hcall |]. split; assumption.
Defined.
End MoreInstances.
